(** * Emotion scoring core of [main.py]

    A shallow embedding of the three functions that make up the
    text-analysis core of the service:

    - [keyword_based_emotion_detection]  (main.py, lines 41-82)
    - [analyze_emotion_text2emotion]     (main.py, lines 84-107)
    - [get_dominant_emotion]             (main.py, lines 109-123)

    Modelling choices.

    - A Python [str] is a [string]; every [ascii] is read as the code point
      of the same number, so the texts covered are those over the code
      points 0..255.  On that range [str.lower], [str.split] and the
      regular-expression classes [\w] and [\b] are the tables below.
    - A Python [float] is a rational [Q].  Every float the functions build
      from a text is a quotient of two small integers or the literal
      [0.1]; the comparisons the code makes ([== 0], [<], [>]) are exact
      on floats as they are on [Q].  The literal [0.1] is [1 # 10]: the
      same literal is written at both places of the source that use it.
      Equality of floats is [Qeq] ([==]).  Infinities and not-a-number
      are not values of [Q]: the scorer never builds them, and the
      external library is taken to return finite scores.
    - A [dict] is an association list in insertion order, which is the
      order Python iterates it in.
    - A Python exception is the [Raise] branch of the [result] monad. *)

From Stdlib Require Import Bool Arith List Ascii String ZArith QArith Lia Lqa.
Import ListNotations.

Open Scope string_scope.

(** ** Python built-ins on strings *)

Module Py.

Definition code (c : ascii) : nat := nat_of_ascii c.

Definition between (lo hi n : nat) : bool := (lo <=? n)%nat && (n <=? hi)%nat.

(** [str.isspace] on one character: TAB..CR, FS..US, space, NEL, NBSP. *)
Definition isspace (c : ascii) : bool :=
  let n := code c in
  between 9 13 n || between 28 32 n || (n =? 133)%nat || (n =? 160)%nat.

(** [str.lower] on one character: A-Z, and the Latin-1 capitals
    192..222 but the multiplication sign 215. *)
Definition lower_char (c : ascii) : ascii :=
  let n := code c in
  if between 65 90 n || (between 192 222 n && negb (n =? 215)%nat)
  then ascii_of_nat (n + 32)
  else c.

Fixpoint lower (s : string) : string :=
  match s with
  | EmptyString => EmptyString
  | String c s' => String (lower_char c) (lower s')
  end.

(** The class [\w] of the [re] module on [str] patterns: alphanumeric
    characters and the underscore. *)
Definition is_word (c : ascii) : bool :=
  let n := code c in
  between 48 57 n || between 65 90 n || (n =? 95)%nat || between 97 122 n
  || (n =? 170)%nat || between 178 179 n || (n =? 181)%nat
  || between 185 186 n || between 188 190 n
  || between 192 214 n || between 216 246 n || between 248 255 n.

(** [str.split()] without arguments: the maximal runs of characters that
    are not whitespace.  [cur] is the word being read, if any. *)
Definition flush (cur : option string) : list string :=
  match cur with
  | Some w => [w]
  | None => []
  end.

Definition push (cur : option string) (c : ascii) : option string :=
  match cur with
  | Some w => Some (w ++ String c EmptyString)
  | None => Some (String c EmptyString)
  end.

Fixpoint split_from (cur : option string) (s : string) : list string :=
  match s with
  | EmptyString => flush cur
  | String c s' =>
      if isspace c then flush cur ++ split_from None s'
      else split_from (push cur c) s'
  end.

Definition split (s : string) : list string := split_from None s.

(** *** [re.findall(r'\b' + re.escape(keyword) + r'\b', text)]

    Every keyword of the lexicon is made of lower-case ASCII letters, so
    [re.escape] returns it unchanged and the pattern is the literal
    keyword between two [\b] assertions. *)

Definition head (s : string) : option ascii :=
  match s with
  | EmptyString => None
  | String c _ => Some c
  end.

(** Last character of [s], or [before] when [s] is empty. *)
Fixpoint last_char (before : option ascii) (s : string) : option ascii :=
  match s with
  | EmptyString => before
  | String c s' => last_char (Some c) s'
  end.

Definition is_word_at (o : option ascii) : bool :=
  match o with
  | Some c => is_word c
  | None => false
  end.

(** [\b]: exactly one of the two neighbours is a word character; the
    edges of the text count as non-word. *)
Definition word_boundary (before after : option ascii) : bool :=
  xorb (is_word_at before) (is_word_at after).

Fixpoint strip_prefix (p s : string) : option string :=
  match p with
  | EmptyString => Some s
  | String a p' =>
      match s with
      | EmptyString => None
      | String b s' => if Ascii.eqb a b then strip_prefix p' s' else None
      end
  end.

(** Does the pattern match at the current position?  [prev] is the
    character just before it, [s] the text from it on. *)
Definition match_here (kw : string) (prev : option ascii) (s : string) : bool :=
  word_boundary prev (head s) &&
  match strip_prefix kw s with
  | Some rest => word_boundary (last_char prev kw) (head rest)
  | None => false
  end.

(** The left-to-right scan of [findall]: the start offsets of the
    matches, which do not overlap ([skip] characters of the last match
    are still to be passed over). *)
Fixpoint scan (kw : string) (skip pos : nat) (prev : option ascii) (s : string)
  : list nat :=
  match s with
  | EmptyString =>
      match skip with
      | O => if match_here kw prev s then [pos] else []
      | S _ => []
      end
  | String c s' =>
      match skip with
      | S k => scan kw k (S pos) (Some c) s'
      | O =>
          if match_here kw prev s
          then pos :: scan kw (String.length kw - 1) (S pos) (Some c) s'
          else scan kw 0 (S pos) (Some c) s'
      end
  end.

Definition findall_word (kw text : string) : list nat := scan kw 0 0 None text.

End Py.

(** ** Exceptions *)

Inductive exn : Type :=
| KeyError (key : string)
| ValueError
| ZeroDivisionError
| LibraryError.

Inductive result (A : Type) : Type :=
| Ok (a : A)
| Raise (e : exn).

Arguments Ok {A} a.
Arguments Raise {A} e.

Definition bind {A B : Type} (r : result A) (k : A -> result B) : result B :=
  match r with
  | Ok a => k a
  | Raise e => Raise e
  end.

Notation "x <- r ;; k" := (bind r (fun x => k))
  (at level 61, r at next level, right associativity).

(** A [for] loop whose body may raise. *)
Fixpoint for_each {A S : Type} (body : S -> A -> result S) (l : list A) (st : S)
  : result S :=
  match l with
  | [] => Ok st
  | a :: l' => st' <- body st a ;; for_each body l' st'
  end.

(** ** Dictionaries from [str] to [float] *)

Definition ScoreMap : Type := list (string * Q).

Definition keys (d : ScoreMap) : list string := map fst d.
Definition values (d : ScoreMap) : list Q := map snd d.

(** [d[k]] *)
Fixpoint getitem (k : string) (d : ScoreMap) : result Q :=
  match d with
  | [] => Raise (KeyError k)
  | (k', v) :: d' => if String.eqb k' k then Ok v else getitem k d'
  end.

(** [d[k] = v]: the entry keeps its place, a new key goes last. *)
Fixpoint setitem (k : string) (v : Q) (d : ScoreMap) : ScoreMap :=
  match d with
  | [] => [(k, v)]
  | (k', v') :: d' =>
      if String.eqb k' k then (k', v) :: d' else (k', v') :: setitem k v d'
  end.

(** [d.get(k, default)] *)
Definition get_default (k : string) (default : Q) (d : ScoreMap) : Q :=
  match getitem k d with
  | Ok v => v
  | Raise _ => default
  end.

(** ** Comparisons and built-ins on floats *)

Definition Qlt_bool (x y : Q) : bool := negb (Qle_bool y x).

(** Truth value of a float: it is not zero. *)
Definition truthy (v : Q) : bool := negb (Qeq_bool v 0).

(** [any(vs)] *)
Definition py_any (vs : list Q) : bool := existsb truthy vs.

(** [all(score == 0 for score in vs)] *)
Definition all_zero (vs : list Q) : bool := forallb (fun score => Qeq_bool score 0) vs.

(** [max(xs, key=key)]: the first of the greatest elements, the running
    best being replaced only by a strictly greater one; [ValueError] on
    an empty sequence. *)
Definition max_from {A : Type} (key : A -> Q) (best : A) (xs : list A) : A :=
  fold_left (fun best x => if Qlt_bool (key best) (key x) then x else best) xs best.

Definition py_max_by {A : Type} (key : A -> Q) (xs : list A) : result A :=
  match xs with
  | [] => Raise ValueError
  | x :: xs' => Ok (max_from key x xs')
  end.

(** [max(xs)] *)
Definition py_max (xs : list Q) : result Q := py_max_by (fun v => v) xs.

(** [a / b] *)
Definition py_div (a b : Q) : result Q :=
  if Qeq_bool b 0 then Raise ZeroDivisionError else Ok (a / b).

(** [{k: f(v) for k, v in d.items()}] for a dictionary, whose keys are
    distinct. *)
Fixpoint map_values (f : Q -> result Q) (d : ScoreMap) : result ScoreMap :=
  match d with
  | [] => Ok []
  | (k, v) :: d' =>
      v' <- f v ;;
      d'' <- map_values f d' ;;
      Ok ((k, v') :: d'')
  end.

(** ** The lexicon scorer (main.py, lines 41-82) *)

(** Lines 48-59. *)
Definition emotion_keywords : list (string * list string) :=
  [ ("happy", ["happy"; "joy"; "excited"; "great"; "amazing"; "wonderful"; "fantastic";
               "awesome"; "good"; "love"; "smile"; "laugh"; "cheerful"; "delighted"]);
    ("sad", ["sad"; "depressed"; "unhappy"; "miserable"; "upset"; "down"; "blue";
             "grief"; "sorrow"; "cry"; "tears"; "lonely"; "heartbroken"]);
    ("angry", ["angry"; "mad"; "furious"; "rage"; "hate"; "annoyed"; "frustrated";
               "irritated"; "pissed"; "outraged"; "livid"; "enraged"]);
    ("fear", ["afraid"; "scared"; "fear"; "terrified"; "worried"; "anxious"; "panic";
              "nervous"; "frightened"; "alarmed"; "concerned"]);
    ("surprise", ["surprised"; "shocked"; "amazed"; "astonished"; "stunned";
                  "bewildered"; "confused"; "wow"; "unbelievable"]) ].

(** Line 61: [{emotion: 0.0 for emotion in emotion_keywords.keys()}]. *)
Definition initial_scores : ScoreMap :=
  map (fun entry => (fst entry, 0)) emotion_keywords.

(** Line 70: [len(re.findall(...))]. *)
Definition count_keyword (keyword text_lower : string) : nat :=
  List.length (Py.findall_word keyword text_lower).

(** Line 71: [scores[emotion] += count]. *)
Definition add_count (emotion : string) (count : nat) (scores : ScoreMap)
  : result ScoreMap :=
  v <- getitem emotion scores ;;
  Ok (setitem emotion (v + inject_Z (Z.of_nat count)) scores).

(** Lines 67-71: the two nested loops. *)
Definition count_keywords (text_lower : string) (scores : ScoreMap) : result ScoreMap :=
  for_each
    (fun scores entry =>
       let '(emotion, keywords) := entry in
       for_each
         (fun scores keyword =>
            add_count emotion (count_keyword keyword text_lower) scores)
         keywords scores)
    emotion_keywords scores.

(** Lines 73-82: normalisation and the baseline. *)
Definition normalize (scores : ScoreMap) : result ScoreMap :=
  max_score <- (if py_any (values scores) then py_max (values scores) else Ok 1) ;;
  scores <- (if Qlt_bool 0 max_score
             then map_values (fun v => py_div v max_score) scores
             else Ok scores) ;;
  Ok (if all_zero (values scores) then setitem "happy" (1 # 10) scores else scores).

(** The scores as they stand after the counting loops, before
    normalisation: the raw counts. *)
Definition raw_scores (text : string) : result ScoreMap :=
  count_keywords (Py.lower text) initial_scores.

Definition total_words (text : string) : nat := List.length (Py.split text).

Definition keyword_based_emotion_detection (text : string) : result ScoreMap :=
  let scores := initial_scores in
  if (total_words text =? 0)%nat then Ok scores
  else
    scores <- raw_scores text ;;
    normalize scores.

(** ** The library-backed scorer (main.py, lines 84-107) *)

(** Lines 92-98, in the order the source writes them. *)
Definition emotion_mapping : list (string * string) :=
  [ ("Happy", "happy"); ("Angry", "angry"); ("Sad", "sad");
    ("Surprise", "surprise"); ("Fear", "fear") ].

(** Lines 100-102. *)
Definition map_emotions (emotions : ScoreMap) : ScoreMap :=
  fold_left
    (fun mapped_emotions om =>
       setitem (snd om) (get_default (fst om) 0 emotions) mapped_emotions)
    emotion_mapping [].

Section Text2Emotion.

(** [te.get_emotion]: the external library, which returns a dictionary
    or raises. *)
Variable get_emotion : string -> result ScoreMap.

Definition analyze_emotion_text2emotion (text : string) : result ScoreMap :=
  match get_emotion text with
  | Ok emotions => Ok (map_emotions emotions)
  | Raise _ => keyword_based_emotion_detection text
  end.

End Text2Emotion.

(** ** The selector (main.py, lines 109-123) *)

Definition get_dominant_emotion (emotions : ScoreMap) : result (string * Q) :=
  if match emotions with [] => true | _ => false end || all_zero (values emotions)
  then Ok ("neutral", 0)
  else
    max_emotion <- py_max_by snd emotions ;;
    let '(emotion, confidence) := max_emotion in
    if Qlt_bool confidence (1 # 10) then Ok ("calm", confidence)
    else Ok (emotion, confidence).

(** Lines 161-167 with the built-in scorer: score, then select. *)
Definition analyze (text : string) : result (string * Q) :=
  emotions <- keyword_based_emotion_detection text ;;
  get_dominant_emotion emotions.

(** ** Vocabulary of the statements *)

Open Scope list_scope.

(** Where [max] stops: everything before the winner is strictly smaller,
    nothing after it is greater. *)
Definition first_max {A : Type} (key : A -> Q) (xs : list A) (r : A) : Prop :=
  exists pre post,
    xs = pre ++ r :: post
    /\ Forall (fun x => key x < key r) pre
    /\ Forall (fun x => key x <= key r) post.

(** The value, in a map, that no value of the map exceeds. *)
Definition is_maximum (c : Q) (m : ScoreMap) : Prop :=
  In c (values m) /\ forall v, In v (values m) -> v <= c.

(** Every score divided by [max_score]: what the dictionary comprehension
    of line 76 builds when no division raises. *)
Definition scaled (max_score : Q) (scores : ScoreMap) : ScoreMap :=
  map (fun kv => (fst kv, snd kv / max_score)) scores.

Definition five_categories : list string := ["happy"; "sad"; "angry"; "fear"; "surprise"].

Definition in_unit_interval (v : Q) : Prop := 0 <= v /\ v <= 1.

(** A text made of whitespace only (the empty text is one). *)
Fixpoint all_space (s : string) : bool :=
  match s with
  | EmptyString => true
  | String c s' => Py.isspace c && all_space s'
  end.

(** A keyword that begins and ends with a word character, as every
    keyword of the lexicon does. *)
Definition keyword_ok (kw : string) : bool :=
  Py.is_word_at (Py.head kw) && Py.is_word_at (Py.last_char None kw).

(** The score of [k] in [m] is the float [q]. *)
Definition score_is (k : string) (m : ScoreMap) (q : Q) : Prop :=
  exists v, getitem k m = Ok v /\ v == q.

(** The order in which the lexicon declares the categories. *)
Definition declaration_order : list string := map fst emotion_keywords.

(** [label] holds the greatest score [confidence] among the categories of
    [order], and no category before it in [order] reaches that score. *)
Definition earliest_maximal (order : list string) (m : ScoreMap)
           (label : string) (confidence : Q) : Prop :=
  exists pre post,
    order = pre ++ label :: post
    /\ getitem label m = Ok confidence
    /\ (forall k v, In k pre -> getitem k m = Ok v -> v < confidence)
    /\ (forall k v, In k post -> getitem k m = Ok v -> v <= confidence).

(** Scores in the order [analyze_emotion_text2emotion] builds its result
    in, with angry and sad tied at the top. *)
Definition tied_library_scores : ScoreMap :=
  [("happy", 0); ("angry", 1); ("sad", 1); ("surprise", 0); ("fear", 0)].

(** ** The HTTP layer (main.py, lines 125-179) *)

Module PyStr.

(** [str.lstrip()]: leading whitespace removed. *)
Fixpoint lstrip (s : string) : string :=
  match s with
  | EmptyString => EmptyString
  | String c s' => if Py.isspace c then lstrip s' else s
  end.

(** [str.rstrip()]: trailing whitespace removed. *)
Fixpoint rstrip (s : string) : string :=
  match s with
  | EmptyString => EmptyString
  | String c s' =>
      match rstrip s' with
      | EmptyString => if Py.isspace c then EmptyString else String c EmptyString
      | String d r => String c (String d r)
      end
  end.

(** [str.strip()] *)
Definition strip (s : string) : string := rstrip (lstrip s).

End PyStr.

(** Lines 35-38. *)
Record EmotionResponse : Type := {
  emotion : string;
  confidence : Q;
  all_emotions : ScoreMap
}.

(** What a request ends with: the response model, or an [HTTPException]
    with its status code and detail. *)
Inductive http_result : Type :=
| Response (r : EmotionResponse)
| HTTPException (status_code : nat) (detail : string).

(** Lines 137-143: the [emotion_engine] field of the health report. *)
Definition health_check_engine (USE_TEXT2EMOTION : bool) : string :=
  if USE_TEXT2EMOTION then "text2emotion" else "keyword-based".

Section Endpoint.

(** Lines 10-14: whether the import of the library succeeded. *)
Variable USE_TEXT2EMOTION : bool.

(** [te.get_emotion], as in [analyze_emotion_text2emotion]. *)
Variable get_emotion : string -> result ScoreMap.

(** [round(x, 3)]: rounding of a float to three decimals depends on the
    binary representation of the float and is left as a parameter. *)
Variable round3 : Q -> Q.

(** Lines 160-173: what runs inside the [try] once the text is accepted. *)
Definition analyze_accepted (text : string) : result EmotionResponse :=
  emotions <- (if USE_TEXT2EMOTION
               then analyze_emotion_text2emotion get_emotion text
               else keyword_based_emotion_detection text) ;;
  dominant <- get_dominant_emotion emotions ;;
  let '(dominant_emotion, confidence) := dominant in
  Ok {| emotion := dominant_emotion;
        confidence := round3 confidence;
        all_emotions := map (fun kv => (fst kv, round3 (snd kv))) emotions |}.

(** Lines 145-179.  An [HTTPException] raised inside the [try] is raised
    again; any other exception becomes status 500. *)
Definition analyze_emotion (input_text : string) : http_result :=
  let text := PyStr.strip input_text in
  match text with
  | EmptyString => HTTPException 400 "Text input cannot be empty"
  | String _ _ =>
      if (1000 <? String.length text)%nat
      then HTTPException 400 "Text too long (max 1000 characters)"
      else
        match analyze_accepted text with
        | Ok response => Response response
        | Raise _ =>
            HTTPException 500 "Internal server error during emotion analysis"
        end
  end.

End Endpoint.

(** ** More vocabulary *)

(** The scorer the endpoint calls (lines 161-164), by the flag. *)
Definition endpoint_scorer (USE_TEXT2EMOTION : bool)
           (get_emotion : string -> result ScoreMap) (text : string)
  : result ScoreMap :=
  if USE_TEXT2EMOTION
  then analyze_emotion_text2emotion get_emotion text
  else keyword_based_emotion_detection text.

(** Total count of the keywords of one category in the lowered text. *)
Definition keyword_hits (text_lower : string) (keywords : list string) : nat :=
  list_sum (map (fun keyword => count_keyword keyword text_lower) keywords).

(** Every character of [s] is a word character. *)
Fixpoint all_word (s : string) : bool :=
  match s with
  | EmptyString => true
  | String c s' => Py.is_word c && all_word s'
  end.

(** The first [n] characters of [s] exist and are word characters. *)
Fixpoint word_run (n : nat) (s : string) : bool :=
  match n with
  | O => true
  | S n' =>
      match s with
      | EmptyString => false
      | String c s' => Py.is_word c && word_run n' s'
      end
  end.

(** [text] holds [kw] at offset [String.length pre], with no word
    character just before or just after it. *)
Definition standalone_at (kw text pre post : string) : Prop :=
  text = (pre ++ kw ++ post)%string
  /\ Py.is_word_at (Py.last_char None pre) = false
  /\ Py.is_word_at (Py.head post) = false.

(** A text of [n] letters "a". *)
Definition letters (n : nat) : string := string_of_list_ascii (repeat "a"%char n).

(** * Properties *)

Example lower_mixed : Py.lower "I am MAD about Madrid" = "i am mad about madrid".
Proof. reflexivity. Qed.

Example split_words : Py.split "  the weather
 is mild " = ["the"; "weather"; "is"; "mild"].
Proof. reflexivity. Qed.

Example findall_mad : Py.findall_word "mad" "i am mad about madrid, mad!" = [5; 23]%nat.
Proof. reflexivity. Qed.

Example score_mild :
  keyword_based_emotion_detection "the weather is mild today"
  = Ok [("happy", 1 # 10); ("sad", 0); ("angry", 0); ("fear", 0); ("surprise", 0)].
Proof. vm_compute. reflexivity. Qed.

Example score_happy :
  keyword_based_emotion_detection "I am so happy and excited today, this is amazing! sad"
  = Ok [("happy", 3 # 3); ("sad", 1 # 3); ("angry", 0 # 3); ("fear", 0 # 3); ("surprise", 0 # 3)].
Proof. vm_compute. reflexivity. Qed.

(** ** Order on floats *)

Lemma Qlt_bool_iff (x y : Q) : Qlt_bool x y = true <-> x < y.
Proof.
  unfold Qlt_bool. rewrite negb_true_iff. split; intro H.
  - apply Qnot_le_lt. intro Hle. apply Qle_bool_iff in Hle. congruence.
  - destruct (Qle_bool y x) eqn:E; [|reflexivity].
    apply Qle_bool_iff in E. exfalso. exact (Qlt_not_le _ _ H E).
Qed.

Lemma Qlt_bool_false_iff (x y : Q) : Qlt_bool x y = false <-> y <= x.
Proof.
  unfold Qlt_bool. rewrite negb_false_iff. apply Qle_bool_iff.
Qed.

Lemma all_zero_iff (vs : list Q) : all_zero vs = true <-> Forall (fun v => v == 0) vs.
Proof.
  unfold all_zero. rewrite forallb_forall, Forall_forall.
  split; intros H v Hv; apply Qeq_bool_iff, H, Hv.
Qed.

Lemma py_any_all_zero (vs : list Q) : py_any vs = negb (all_zero vs).
Proof.
  induction vs as [|v vs IH]; simpl; [reflexivity|].
  rewrite IH. unfold truthy. now rewrite negb_andb.
Qed.

(** ** [max]: the first of the greatest elements *)

Section Max.

Context {A : Type} (key : A -> Q).

Lemma max_from_scan (xs : list A) :
  forall (best : A) (pre post : list A),
    Forall (fun x => key x < key best) pre ->
    Forall (fun x => key x <= key best) post ->
    first_max key (pre ++ best :: post ++ xs) (max_from key best xs).
Proof.
  induction xs as [|x xs IH]; intros best pre post Hpre Hpost.
  - exists pre, post. rewrite app_nil_r. auto.
  - unfold max_from. simpl. fold (max_from key).
    destruct (Qlt_bool (key best) (key x)) eqn:E.
    + apply Qlt_bool_iff in E.
      replace (pre ++ best :: post ++ x :: xs)
        with ((pre ++ best :: post) ++ x :: [] ++ xs)
        by (rewrite <- app_assoc; reflexivity).
      apply IH; [|constructor].
      apply Forall_app. split; [|constructor].
      * eapply Forall_impl; [|exact Hpre]. intros a Ha. simpl in Ha.
        eapply Qlt_trans; eassumption.
      * exact E.
      * eapply Forall_impl; [|exact Hpost]. intros a Ha. simpl in Ha.
        eapply Qle_lt_trans; eassumption.
    + apply Qlt_bool_false_iff in E.
      replace (pre ++ best :: post ++ x :: xs)
        with (pre ++ best :: (post ++ [x]) ++ xs)
        by (rewrite <- app_assoc; reflexivity).
      apply IH; [exact Hpre|].
      apply Forall_app. split; [exact Hpost|]. constructor; [exact E|constructor].
Qed.

Lemma py_max_by_first (x : A) (xs : list A) :
  exists r, py_max_by key (x :: xs) = Ok r /\ first_max key (x :: xs) r.
Proof.
  exists (max_from key x xs). split; [reflexivity|].
  exact (max_from_scan xs x [] [] (Forall_nil _) (Forall_nil _)).
Qed.

Lemma first_max_In (xs : list A) (r : A) : first_max key xs r -> In r xs.
Proof.
  intros (pre & post & -> & _). apply in_or_app. right. left. reflexivity.
Qed.

Lemma first_max_upper (xs : list A) (r : A) :
  first_max key xs r -> forall x, In x xs -> key x <= key r.
Proof.
  intros (pre & post & -> & Hpre & Hpost) x Hx.
  rewrite Forall_forall in Hpre, Hpost.
  apply in_app_or in Hx. destruct Hx as [Hx|[Hx|Hx]].
  - apply Qlt_le_weak, Hpre, Hx.
  - subst. apply Qle_refl.
  - apply Hpost, Hx.
Qed.

End Max.

(** ** The selector *)

Lemma select_neutral (m : ScoreMap) :
  Forall (fun v => v == 0) (values m) ->
  get_dominant_emotion m = Ok ("neutral", 0).
Proof.
  intro H. apply all_zero_iff in H. unfold get_dominant_emotion.
  rewrite H, orb_true_r. reflexivity.
Qed.

(** On a map that has a non-zero value the selector reports the first
    entry of greatest value, under its own key or as "calm". *)
Lemma select_winner (m : ScoreMap) :
  all_zero (values m) = false ->
  exists emotion confidence,
    first_max snd m (emotion, confidence)
    /\ get_dominant_emotion m
       = Ok (if Qlt_bool confidence (1 # 10) then "calm" else emotion, confidence).
Proof.
  intro Hz. destruct m as [|e m]; [discriminate Hz|].
  destruct (py_max_by_first snd e m) as ([emotion confidence] & Hmax & Hfirst).
  exists emotion, confidence. split; [exact Hfirst|].
  unfold get_dominant_emotion. rewrite Hz. cbn [orb].
  rewrite Hmax. cbn [bind].
  destruct (Qlt_bool confidence (1 # 10)); reflexivity.
Qed.

Lemma positive_not_all_zero (vs : list Q) (c : Q) :
  In c vs -> ~ c == 0 -> all_zero vs = false.
Proof.
  intros Hin Hc. destruct (all_zero vs) eqn:E; [|reflexivity].
  apply all_zero_iff in E. rewrite Forall_forall in E.
  exfalso. apply Hc, E, Hin.
Qed.

Lemma winner_is_maximum (m : ScoreMap) (c : Q) (emotion : string) (confidence : Q) :
  is_maximum c m -> first_max snd m (emotion, confidence) -> confidence == c.
Proof.
  intros [Hin Hup] Hfirst. apply Qle_antisym.
  - apply Hup. unfold values.
    change confidence with (snd (emotion, confidence)).
    apply in_map. eapply first_max_In. exact Hfirst.
  - unfold values in Hin. apply in_map_iff in Hin.
    destruct Hin as (x & <- & Hx).
    exact (first_max_upper snd m _ Hfirst x Hx).
Qed.

(** C3.  A score map that is empty, or whose values are all exactly zero,
    is selected as the pair ("neutral", 0.0). *)
Theorem select_empty_or_zero (m : ScoreMap) :
  m = [] \/ Forall (fun v => v == 0) (values m) ->
  get_dominant_emotion m = Ok ("neutral", 0).
Proof.
  intros [->|H]; [reflexivity|]. apply select_neutral, H.
Qed.

Lemma select_empty_or_zero_witness :
  get_dominant_emotion [] = Ok ("neutral", 0)
  /\ get_dominant_emotion [("happy", 0); ("sad", 0 # 3)] = Ok ("neutral", 0).
Proof.
  split.
  - apply select_empty_or_zero. left. reflexivity.
  - apply select_empty_or_zero. right.
    repeat constructor.
Defined.

(** C2.  When the greatest value of a score map lies strictly between 0
    and 0.1, the selector answers "calm", and the confidence it reports is
    that greatest value. *)
Theorem select_below_threshold (m : ScoreMap) (c : Q) :
  is_maximum c m -> 0 < c -> c < 1 # 10 ->
  exists confidence,
    get_dominant_emotion m = Ok ("calm", confidence) /\ confidence == c.
Proof.
  intros Hmax Hpos Hlow.
  assert (Hz : all_zero (values m) = false).
  { apply (positive_not_all_zero _ c); [apply Hmax|].
    intro E. rewrite E in Hpos. exact (Qlt_irrefl _ Hpos). }
  destruct (select_winner m Hz) as (emotion & confidence & Hfirst & Hsel).
  pose proof (winner_is_maximum m c emotion confidence Hmax Hfirst) as Heq.
  exists confidence. split; [|exact Heq].
  rewrite Hsel.
  assert (Hlt : Qlt_bool confidence (1 # 10) = true).
  { apply Qlt_bool_iff. rewrite Heq. exact Hlow. }
  rewrite Hlt. reflexivity.
Qed.

Lemma select_below_threshold_witness :
  exists confidence,
    get_dominant_emotion [("happy", 0); ("sad", 1 # 20); ("angry", 1 # 50)]
    = Ok ("calm", confidence)
    /\ confidence == 1 # 20.
Proof.
  apply (select_below_threshold
           [("happy", 0); ("sad", 1 # 20); ("angry", 1 # 50)] (1 # 20)).
  - split.
    + simpl. right. left. reflexivity.
    + intros v Hv. simpl in Hv.
      destruct Hv as [<-|[<-|[<-|[]]]]; apply Qle_bool_iff; reflexivity.
  - reflexivity.
  - reflexivity.
Defined.

(** ** Dictionaries *)

Lemma getitem_present (k : string) (d : ScoreMap) :
  In k (keys d) -> exists v, getitem k d = Ok v /\ In v (values d).
Proof.
  induction d as [|[k' v'] d IH]; simpl; [intros []|].
  intro H. destruct (String.eqb_spec k' k) as [->|Hne].
  - exists v'. auto.
  - destruct H as [H|H]; [contradiction|].
    destruct (IH H) as (v & Hv & Hin). exists v. auto.
Qed.

Lemma setitem_keys (k : string) (v : Q) (d : ScoreMap) :
  In k (keys d) -> keys (setitem k v d) = keys d.
Proof.
  induction d as [|[k' v'] d IH]; simpl; [intros []|].
  intro H. destruct (String.eqb_spec k' k) as [->|Hne]; [reflexivity|].
  destruct H as [H|H]; [contradiction|].
  simpl. f_equal. apply IH, H.
Qed.

Lemma setitem_values (P : Q -> Prop) (k : string) (v : Q) (d : ScoreMap) :
  P v -> Forall P (values d) -> Forall P (values (setitem k v d)).
Proof.
  intros Hv. induction d as [|[k' v'] d IH]; simpl; intro H.
  - constructor; [exact Hv|constructor].
  - inversion H; subst. destruct (String.eqb k' k); simpl.
    + constructor; assumption.
    + constructor; [assumption|]. apply IH. assumption.
Qed.

Lemma getitem_setitem_same (k : string) (v : Q) (d : ScoreMap) :
  getitem k (setitem k v d) = Ok v.
Proof.
  induction d as [|[k' v'] d IH]; simpl.
  - rewrite String.eqb_refl. reflexivity.
  - destruct (String.eqb k' k) eqn:E; simpl; rewrite E; [reflexivity|exact IH].
Qed.

Lemma getitem_setitem_other (k k0 : string) (v : Q) (d : ScoreMap) :
  k <> k0 -> getitem k0 (setitem k v d) = getitem k0 d.
Proof.
  intro Hne. induction d as [|[k' v'] d IH]; simpl.
  - destruct (String.eqb_spec k k0); [contradiction|reflexivity].
  - destruct (String.eqb_spec k' k) as [->|Hk]; simpl.
    + destruct (String.eqb_spec k k0); [contradiction|reflexivity].
    + rewrite IH. reflexivity.
Qed.

Lemma getitem_In_values (k : string) (d : ScoreMap) (v : Q) :
  getitem k d = Ok v -> In v (values d).
Proof.
  induction d as [|[k' v'] d IH]; simpl; [discriminate|].
  destruct (String.eqb k' k); [|auto].
  intro H. injection H as ->. auto.
Qed.

(** ** Loops *)

Lemma for_each_invariant {A S : Type} (I : S -> Prop)
      (body : S -> A -> result S) (l : list A) :
  (forall st a, In a l -> I st -> exists st', body st a = Ok st' /\ I st') ->
  forall st, I st -> exists st', for_each body l st = Ok st' /\ I st'.
Proof.
  induction l as [|a l IH]; intros Hbody st Hst; simpl.
  - exists st. auto.
  - destruct (Hbody st a (or_introl eq_refl) Hst) as (st1 & -> & H1). simpl.
    apply IH; [|exact H1].
    intros st2 b Hb. apply Hbody. right. exact Hb.
Qed.

Section CountLoop.

Variable text_lower : string.
Variable P : Q -> Prop.

(** [P] survives the addition of the count of any keyword of the lexicon. *)
Hypothesis P_add :
  forall emotion keywords keyword v,
    In (emotion, keywords) emotion_keywords -> In keyword keywords ->
    P v -> P (v + inject_Z (Z.of_nat (count_keyword keyword text_lower))).

Lemma add_count_invariant (emotion : string) (keywords : list string)
      (keyword : string) (scores : ScoreMap) :
  In (emotion, keywords) emotion_keywords -> In keyword keywords ->
  (keys scores = keys initial_scores /\ Forall P (values scores)) ->
  exists scores',
    add_count emotion (count_keyword keyword text_lower) scores = Ok scores'
    /\ (keys scores' = keys initial_scores /\ Forall P (values scores')).
Proof.
  intros He Hk [Hkeys HP].
  assert (Hin : In emotion (keys scores)).
  { rewrite Hkeys. unfold keys, initial_scores. rewrite map_map.
    apply in_map_iff. exists (emotion, keywords). split; [reflexivity|exact He]. }
  destruct (getitem_present emotion scores Hin) as (v & Hv & Hvin).
  unfold add_count. rewrite Hv. simpl. eexists. split; [reflexivity|].
  split.
  - rewrite setitem_keys; assumption.
  - apply setitem_values; [|exact HP].
    apply (P_add emotion keywords); try assumption.
    rewrite Forall_forall in HP. apply HP, Hvin.
Qed.

Lemma count_keywords_invariant (scores : ScoreMap) :
  (keys scores = keys initial_scores /\ Forall P (values scores)) ->
  exists scores',
    count_keywords text_lower scores = Ok scores'
    /\ (keys scores' = keys initial_scores /\ Forall P (values scores')).
Proof.
  pose (I := fun sc : ScoreMap =>
               keys sc = keys initial_scores /\ Forall P (values sc)).
  unfold count_keywords. apply (for_each_invariant I).
  intros st [emotion keywords] He Hst.
  apply (for_each_invariant I); [|exact Hst].
  intros st' keyword Hk Hst'.
  apply (add_count_invariant emotion keywords); assumption.
Qed.

End CountLoop.

(** ** Normalisation *)

Lemma map_values_div (max_score : Q) (scores : ScoreMap) :
  ~ max_score == 0 ->
  map_values (fun v => py_div v max_score) scores = Ok (scaled max_score scores).
Proof.
  intro Hnz.
  assert (E : Qeq_bool max_score 0 = false).
  { destruct (Qeq_bool max_score 0) eqn:E; [|reflexivity].
    apply Qeq_bool_iff in E. contradiction. }
  induction scores as [|[k v] scores IH]; simpl; [reflexivity|].
  unfold py_div at 1. rewrite E. simpl. rewrite IH. reflexivity.
Qed.

Lemma values_scaled (max_score : Q) (scores : ScoreMap) :
  values (scaled max_score scores) = map (fun v => v / max_score) (values scores).
Proof.
  unfold values, scaled. rewrite !map_map. reflexivity.
Qed.

Lemma keys_scaled (max_score : Q) (scores : ScoreMap) :
  keys (scaled max_score scores) = keys scores.
Proof.
  unfold keys, scaled. rewrite map_map. reflexivity.
Qed.

Lemma div_zero_iff (v max_score : Q) :
  ~ max_score == 0 -> (v / max_score == 0 <-> v == 0).
Proof.
  intro Hnz. split; intro H.
  - rewrite <- (Qmult_div_r v max_score Hnz), H. ring.
  - rewrite H. unfold Qdiv. ring.
Qed.

Lemma all_zero_scaled (max_score : Q) (scores : ScoreMap) :
  ~ max_score == 0 ->
  all_zero (values (scaled max_score scores)) = all_zero (values scores).
Proof.
  intro Hnz. apply eq_true_iff_eq. rewrite !all_zero_iff.
  rewrite values_scaled, Forall_map.
  split; intro H; (eapply Forall_impl; [|exact H]); intros v Hv; simpl in *;
    apply (div_zero_iff v max_score Hnz); exact Hv.
Qed.

Lemma all_zero_false_positive (vs : list Q) :
  Forall (fun v => 0 <= v) vs -> all_zero vs = false ->
  exists v, In v vs /\ 0 < v.
Proof.
  induction vs as [|v vs IH]; simpl; [discriminate|].
  intros Hnn Hz. inversion Hnn; subst.
  destruct (Qeq_bool v 0) eqn:E; simpl in Hz.
  - destruct (IH H2 Hz) as (w & Hw & Hpos). exists w. auto.
  - exists v. split; [auto|].
    apply Qle_lt_or_eq in H1. destruct H1 as [H1|H1]; [exact H1|].
    assert (Qeq_bool v 0 = true) by (apply Qeq_bool_iff; symmetry; exact H1).
    congruence.
Qed.

Lemma py_max_is_maximum (scores : ScoreMap) :
  scores <> [] ->
  exists max_score, py_max (values scores) = Ok max_score /\ is_maximum max_score scores.
Proof.
  destruct scores as [|[k v] scores]; [congruence|]. intros _.
  destruct (py_max_by_first (fun v => v) v (values scores)) as (r & Hr & Hfirst).
  exists r. split; [exact Hr|]. split.
  - exact (first_max_In _ _ _ Hfirst).
  - exact (first_max_upper _ _ _ Hfirst).
Qed.

(** The two ways [normalize] ends on non-negative scores: with no count
    at all the scores stay zero and "happy" gets the baseline; otherwise
    every score is divided by the greatest, which is positive. *)
Lemma normalize_cases (scores : ScoreMap) :
  Forall (fun v => 0 <= v) (values scores) ->
  (all_zero (values scores) = true
   /\ normalize scores = Ok (setitem "happy" (1 # 10) (scaled 1 scores)))
  \/ (exists max_score,
         is_maximum max_score scores /\ 0 < max_score
         /\ normalize scores = Ok (scaled max_score scores)).
Proof.
  intro Hnn. unfold normalize. rewrite py_any_all_zero.
  destruct (all_zero (values scores)) eqn:Hz; simpl.
  - left. split; [reflexivity|].
    assert (H1 : ~ 1 == 0) by discriminate.
    rewrite (map_values_div 1 scores H1). simpl.
    rewrite (all_zero_scaled 1 scores H1), Hz. reflexivity.
  - right.
    assert (Hne : scores <> []) by (intros ->; discriminate Hz).
    destruct (py_max_is_maximum scores Hne) as (mx & -> & Hmax).
    exists mx. split; [exact Hmax|].
    assert (Hpos : 0 < mx).
    { destruct (all_zero_false_positive _ Hnn Hz) as (v & Hv & Hvpos).
      eapply Qlt_le_trans; [exact Hvpos|]. apply Hmax, Hv. }
    split; [exact Hpos|]. simpl.
    assert (Hlt : Qlt_bool 0 mx = true) by (apply Qlt_bool_iff; exact Hpos).
    rewrite Hlt.
    assert (Hnz : ~ mx == 0).
    { intro E. rewrite E in Hpos. exact (Qlt_irrefl _ Hpos). }
    rewrite (map_values_div mx scores Hnz). simpl.
    rewrite (all_zero_scaled mx scores Hnz), Hz. reflexivity.
Qed.

(** ** The scorer *)

Lemma initial_keys : keys initial_scores = ["happy"; "sad"; "angry"; "fear"; "surprise"].
Proof. reflexivity. Qed.

Lemma raw_scores_counts (text : string) :
  exists raw,
    raw_scores text = Ok raw
    /\ keys raw = keys initial_scores
    /\ Forall (fun v => 0 <= v) (values raw).
Proof.
  destruct (count_keywords_invariant (Py.lower text) (fun v => 0 <= v))
    with (scores := initial_scores) as (raw & Hraw & Hkeys & Hnn).
  - intros emotion keywords keyword v _ _ Hv.
    rewrite <- (Qplus_0_r 0). apply Qplus_le_compat; [exact Hv|].
    unfold Qle. simpl. lia.
  - split; [reflexivity|]. repeat constructor; discriminate.
  - exists raw. auto.
Qed.

Lemma scorer_no_word (text : string) :
  total_words text = 0%nat ->
  keyword_based_emotion_detection text = Ok initial_scores.
Proof.
  intro H. unfold keyword_based_emotion_detection. rewrite H. reflexivity.
Qed.

Lemma scorer_words (text : string) :
  total_words text <> 0%nat ->
  exists raw,
    raw_scores text = Ok raw
    /\ keys raw = keys initial_scores
    /\ Forall (fun v => 0 <= v) (values raw)
    /\ keyword_based_emotion_detection text = normalize raw.
Proof.
  intro H. destruct (raw_scores_counts text) as (raw & Hraw & Hkeys & Hnn).
  exists raw. repeat split; try assumption.
  unfold keyword_based_emotion_detection.
  apply Nat.eqb_neq in H. rewrite H, Hraw. reflexivity.
Qed.

Lemma unit_interval_div (v max_score : Q) :
  0 <= v -> v <= max_score -> 0 < max_score ->
  0 <= v / max_score /\ v / max_score <= 1.
Proof.
  intros Hv Hle Hpos. split.
  - apply Qle_shift_div_l; [exact Hpos|]. rewrite Qmult_0_l. exact Hv.
  - apply Qle_shift_div_r; [exact Hpos|]. rewrite Qmult_1_l. exact Hle.
Qed.

(** What every run of the scorer on a text with a word ends with: the
    five keys in declaration order, values between 0 and 1, and one value
    that reaches the threshold 0.1. *)
Lemma scorer_with_words (text : string) :
  total_words text <> 0%nat ->
  exists m,
    keyword_based_emotion_detection text = Ok m
    /\ keys m = five_categories
    /\ Forall in_unit_interval (values m)
    /\ exists v, In v (values m) /\ 1 # 10 <= v.
Proof.
  intro Hw. destruct (scorer_words text Hw) as (raw & _ & Hkeys & Hnn & ->).
  destruct (normalize_cases raw Hnn) as [[Hz ->]|(mx & Hmax & Hpos & ->)].
  - eexists. split; [reflexivity|].
    assert (Hin : In "happy" (keys (scaled 1 raw))).
    { rewrite keys_scaled, Hkeys. left. reflexivity. }
    split; [|split].
    + rewrite setitem_keys by exact Hin. rewrite keys_scaled. exact Hkeys.
    + apply setitem_values; [split; discriminate|].
      rewrite values_scaled, Forall_map.
      apply all_zero_iff in Hz.
      eapply Forall_impl; [|exact Hz]. intros v Hv. simpl in Hv.
      unfold in_unit_interval. rewrite Hv. split; discriminate.
    + exists (1 # 10). split; [|apply Qle_refl].
      eapply getitem_In_values. apply getitem_setitem_same.
  - eexists. split; [reflexivity|].
    split; [|split].
    + rewrite keys_scaled. exact Hkeys.
    + rewrite values_scaled, Forall_map.
      rewrite Forall_forall in Hnn. apply Forall_forall. intros v Hv.
      apply unit_interval_div; [apply Hnn, Hv|apply Hmax, Hv|exact Hpos].
    + exists (mx / mx). split.
      * rewrite values_scaled. apply (in_map (fun v => v / mx)). apply Hmax.
      * assert (E : mx / mx == 1).
        { apply Qmult_inv_r. intro E. rewrite E in Hpos. exact (Qlt_irrefl _ Hpos). }
        rewrite E. discriminate.
Qed.

(** C4.  On every input text, empty or not, the keyword scorer returns a
    score map whose keys are the five categories happy, sad, angry, fear,
    surprise, each once, and whose values all lie between 0 and 1. *)
Theorem scorer_five_categories_unit_interval (text : string) :
  exists m,
    keyword_based_emotion_detection text = Ok m
    /\ keys m = ["happy"; "sad"; "angry"; "fear"; "surprise"]
    /\ NoDup (keys m)
    /\ Forall (fun v => 0 <= v /\ v <= 1) (values m).
Proof.
  assert (Hnd : NoDup five_categories).
  { unfold five_categories.
    repeat (constructor; [simpl; intuition discriminate|]). constructor. }
  destruct (Nat.eq_dec (total_words text) 0) as [Hz|Hw].
  - exists initial_scores. split; [apply scorer_no_word, Hz|].
    split; [reflexivity|]. split; [exact Hnd|].
    repeat constructor; discriminate.
  - destruct (scorer_with_words text Hw) as (m & Hm & Hkeys & Hval & _).
    exists m. rewrite Hkeys. auto.
Qed.

(** ** Words and whitespace *)

Lemma split_from_nil (s : string) :
  forall cur, Py.split_from cur s = [] <-> cur = None /\ all_space s = true.
Proof.
  induction s as [|c s IH]; intro cur; simpl.
  - destruct cur; simpl; intuition congruence.
  - destruct (Py.isspace c); simpl.
    + split.
      * intro H. apply app_eq_nil in H. destruct H as [Hf Hs].
        apply IH in Hs. destruct cur; [discriminate Hf|]. intuition.
      * intros [-> Hs]. simpl. apply IH. auto.
    + rewrite IH. destruct cur; simpl; intuition congruence.
Qed.

Lemma total_words_zero_iff (text : string) :
  total_words text = 0%nat <-> all_space text = true.
Proof.
  unfold total_words, Py.split. rewrite length_zero_iff_nil, split_from_nil.
  intuition.
Qed.

(** C5.  A text has zero words exactly when it is empty or made of
    whitespace only; on such a text the scorer returns the five categories
    all at 0.0, untouched by normalisation and without the happy baseline,
    and the selector applied to that map returns ("neutral", 0.0). *)
Theorem zero_words_all_zero_neutral (text : string) :
  (total_words text = 0%nat <-> all_space text = true)
  /\ (total_words text = 0%nat ->
      keyword_based_emotion_detection text
      = Ok [("happy", 0); ("sad", 0); ("angry", 0); ("fear", 0); ("surprise", 0)]
      /\ get_dominant_emotion
           [("happy", 0); ("sad", 0); ("angry", 0); ("fear", 0); ("surprise", 0)]
         = Ok ("neutral", 0)
      /\ analyze text = Ok ("neutral", 0)).
Proof.
  split; [apply total_words_zero_iff|].
  intro Hz. pose proof (scorer_no_word text Hz) as Hs.
  split; [exact Hs|]. split; [reflexivity|].
  unfold analyze. rewrite Hs. reflexivity.
Qed.

Lemma zero_words_all_zero_neutral_witness :
  keyword_based_emotion_detection "  	 "
  = Ok [("happy", 0); ("sad", 0); ("angry", 0); ("fear", 0); ("surprise", 0)]
  /\ analyze "  	 " = Ok ("neutral", 0).
Proof.
  destruct (zero_words_all_zero_neutral "  	 ") as [_ H].
  destruct (H eq_refl) as (Hs & _ & Ha).
  split; [exact Hs|exact Ha].
Defined.

Lemma scorer_words_not_neutral (text : string) :
  total_words text <> 0%nat ->
  exists m label confidence,
    keyword_based_emotion_detection text = Ok m
    /\ ~ Forall (fun v => v == 0) (values m)
    /\ get_dominant_emotion m = Ok (label, confidence)
    /\ label <> "neutral".
Proof.
  intro Hw.
  destruct (scorer_with_words text Hw) as (m & Hm & Hkeys & _ & v & Hv & Hge).
  assert (Hz : all_zero (values m) = false).
  { apply (positive_not_all_zero _ v Hv). intro E. rewrite E in Hge.
    revert Hge. apply Qlt_not_le. reflexivity. }
  destruct (select_winner m Hz) as (emotion & confidence & Hfirst & Hsel).
  exists m, (if Qlt_bool confidence (1 # 10) then "calm" else emotion), confidence.
  split; [exact Hm|]. split; [|split; [exact Hsel|]].
  - intro Hall. apply all_zero_iff in Hall. congruence.
  - destruct (Qlt_bool confidence (1 # 10)); [discriminate|].
    apply first_max_In in Hfirst.
    assert (Hk : In emotion (keys m)).
    { unfold keys. change emotion with (fst (emotion, confidence)).
      apply in_map. exact Hfirst. }
    rewrite Hkeys in Hk. unfold five_categories in Hk. simpl in Hk.
    intuition (subst; discriminate).
Qed.

(** C10.  On a text with at least one word the scorer never returns an
    all-zero map, and the selector applied to its result never answers
    "neutral": that label is reached on zero-word input only. *)
Theorem words_never_neutral (text : string) :
  (total_words text <> 0%nat ->
   exists m label confidence,
     keyword_based_emotion_detection text = Ok m
     /\ ~ Forall (fun v => v == 0) (values m)
     /\ get_dominant_emotion m = Ok (label, confidence)
     /\ label <> "neutral")
  /\ (forall confidence,
         analyze text = Ok ("neutral", confidence) -> total_words text = 0%nat).
Proof.
  split; [apply scorer_words_not_neutral|].
  intros confidence Ha.
  destruct (Nat.eq_dec (total_words text) 0) as [Hz|Hw]; [exact Hz|].
  destruct (scorer_words_not_neutral text Hw) as (m & label & c & Hm & _ & Hsel & Hne).
  unfold analyze in Ha. rewrite Hm in Ha. simpl in Ha.
  rewrite Hsel in Ha. injection Ha as Hl _. contradiction.
Qed.

Lemma words_never_neutral_witness :
  exists m label confidence,
    keyword_based_emotion_detection "the weather is mild today" = Ok m
    /\ ~ Forall (fun v => v == 0) (values m)
    /\ get_dominant_emotion m = Ok (label, confidence)
    /\ label <> "neutral".
Proof.
  destruct (words_never_neutral "the weather is mild today") as [H _].
  apply H. vm_compute. discriminate.
Defined.

(** ** Whole-word matching *)

Lemma append_snoc (pre : string) (c : ascii) (s : string) :
  ((pre ++ String c EmptyString) ++ s)%string = (pre ++ String c s)%string.
Proof.
  induction pre as [|a pre IH]; simpl; [reflexivity|]. rewrite IH. reflexivity.
Qed.

Lemma length_snoc (pre : string) (c : ascii) :
  String.length (pre ++ String c EmptyString) = S (String.length pre).
Proof.
  induction pre as [|a pre IH]; simpl; [reflexivity|]. rewrite IH. reflexivity.
Qed.

Lemma last_char_snoc (pre : string) (c : ascii) :
  forall prev, Py.last_char prev (pre ++ String c EmptyString) = Some c.
Proof.
  induction pre as [|a pre IH]; intro prev; simpl; [reflexivity|]. apply IH.
Qed.

Lemma append_empty_r (s : string) : (s ++ EmptyString)%string = s.
Proof.
  induction s as [|a s IH]; simpl; [reflexivity|]. rewrite IH. reflexivity.
Qed.

Lemma strip_prefix_sound (p : string) :
  forall s rest, Py.strip_prefix p s = Some rest -> s = (p ++ rest)%string.
Proof.
  induction p as [|a p IH]; intros s rest H; simpl in *.
  - congruence.
  - destruct s as [|b s]; [discriminate|].
    destruct (Ascii.eqb_spec a b) as [->|]; [|discriminate].
    rewrite (IH _ _ H). reflexivity.
Qed.

Lemma last_char_nonempty (a : ascii) (kw : string) (before before' : option ascii) :
  Py.last_char before (String a kw) = Py.last_char before' (String a kw).
Proof. reflexivity. Qed.

Lemma match_here_sound (kw : string) (prev : option ascii) (s : string) :
  keyword_ok kw = true ->
  Py.match_here kw prev s = true ->
  exists post,
    s = (kw ++ post)%string
    /\ Py.is_word_at prev = false
    /\ Py.is_word_at (Py.head post) = false.
Proof.
  unfold keyword_ok, Py.match_here. intros Hok H.
  apply andb_true_iff in Hok. destruct Hok as [Hhead Hlast].
  apply andb_true_iff in H. destruct H as [Hb1 H].
  destruct (Py.strip_prefix kw s) as [rest|] eqn:Hs; [|discriminate].
  apply strip_prefix_sound in Hs. subst s. exists rest.
  destruct kw as [|a kw]; [discriminate Hhead|].
  unfold Py.word_boundary in *.
  rewrite (last_char_nonempty a kw prev None), Hlast in H.
  cbn [Py.head append Py.is_word_at] in Hb1, Hhead. rewrite Hhead in Hb1.
  split; [reflexivity|]. split.
  - destruct (Py.is_word_at prev); [discriminate|reflexivity].
  - destruct (Py.is_word_at (Py.head rest)); [discriminate|reflexivity].
Qed.

(** Every offset the scan reports is the start of an occurrence of the
    keyword with no word character on either side. *)
Lemma scan_sound (kw : string) :
  keyword_ok kw = true ->
  forall (s pre : string) (skip i : nat),
    In i (Py.scan kw skip (String.length pre) (Py.last_char None pre) s) ->
    exists mid post,
      s = (mid ++ kw ++ post)%string
      /\ i = String.length (pre ++ mid)
      /\ Py.is_word_at (Py.last_char None (pre ++ mid)) = false
      /\ Py.is_word_at (Py.head post) = false.
Proof.
  intro Hok.
  assert (Hhere : forall s pre,
             Py.match_here kw (Py.last_char None pre) s = true ->
             exists mid post,
               s = (mid ++ kw ++ post)%string
               /\ String.length pre = String.length (pre ++ mid)
               /\ Py.is_word_at (Py.last_char None (pre ++ mid)) = false
               /\ Py.is_word_at (Py.head post) = false).
  { intros s pre H.
    destruct (match_here_sound kw _ s Hok H) as (post & -> & Hprev & Hpost).
    exists EmptyString, post. rewrite append_empty_r. auto. }
  assert (Hstep : forall c s pre i,
             (exists mid post,
                 s = (mid ++ kw ++ post)%string
                 /\ i = String.length ((pre ++ String c EmptyString) ++ mid)
                 /\ Py.is_word_at
                      (Py.last_char None ((pre ++ String c EmptyString) ++ mid)) = false
                 /\ Py.is_word_at (Py.head post) = false) ->
             exists mid post,
               String c s = (mid ++ kw ++ post)%string
               /\ i = String.length (pre ++ mid)
               /\ Py.is_word_at (Py.last_char None (pre ++ mid)) = false
               /\ Py.is_word_at (Py.head post) = false).
  { intros c s pre i (mid & post & -> & Hi & Hprev & Hpost).
    exists (String c mid), post. rewrite append_snoc in Hi, Hprev. auto. }
  induction s as [|c s IH]; intros pre skip i Hin.
  - simpl in Hin. destruct skip; [|destruct Hin].
    destruct (Py.match_here kw (Py.last_char None pre) EmptyString) eqn:E;
      [|destruct Hin].
    destruct Hin as [<-|[]]. apply Hhere, E.
  - simpl in Hin. destruct skip as [|k].
    + destruct (Py.match_here kw (Py.last_char None pre) (String c s)) eqn:E.
      * destruct Hin as [<-|Hin]; [apply Hhere, E|].
        apply Hstep. apply (IH _ (String.length kw - 1)%nat).
        rewrite length_snoc, last_char_snoc. exact Hin.
      * apply Hstep. apply (IH _ 0%nat).
        rewrite length_snoc, last_char_snoc. exact Hin.
    + apply Hstep. apply (IH _ k).
      rewrite length_snoc, last_char_snoc. exact Hin.
Qed.

Example lexicon_keywords_ok :
  forallb (fun entry => forallb keyword_ok (snd entry)) emotion_keywords = true.
Proof. reflexivity. Qed.

(** C6.  Matching is whole-word.  In "I am mad about madrid" the keyword
    "mad" is counted once (at offset 5, the standalone word), and the raw
    score of angry is 1.  In general every occurrence counted for a
    keyword stands between two non-word characters or text edges, so an
    occurrence inside a longer word is never counted. *)
Theorem whole_word_matching :
  Py.findall_word "mad" (Py.lower "I am mad about madrid") = [5%nat]
  /\ count_keyword "mad" (Py.lower "I am mad about madrid") = 1%nat
  /\ raw_scores "I am mad about madrid"
     = Ok [("happy", 0); ("sad", 0); ("angry", 1); ("fear", 0); ("surprise", 0)]
  /\ forall (kw text : string) (i : nat),
      keyword_ok kw = true ->
      In i (Py.findall_word kw text) ->
      exists pre post,
        text = (pre ++ kw ++ post)%string
        /\ String.length pre = i
        /\ Py.is_word_at (Py.last_char None pre) = false
        /\ Py.is_word_at (Py.head post) = false.
Proof.
  split; [reflexivity|]. split; [reflexivity|]. split; [vm_compute; reflexivity|].
  intros kw text i Hok Hin.
  destruct (scan_sound kw Hok text EmptyString 0 i Hin)
    as (mid & post & Htext & Hi & Hprev & Hpost).
  exists mid, post. simpl in Hi, Hprev. auto.
Qed.

Lemma whole_word_matching_witness :
  exists pre post,
    "i am mad about madrid" = (pre ++ "mad" ++ post)%string
    /\ String.length pre = 5%nat
    /\ Py.is_word_at (Py.last_char None pre) = false
    /\ Py.is_word_at (Py.head post) = false.
Proof.
  destruct whole_word_matching as (_ & _ & _ & H).
  apply (H "mad" "i am mad about madrid" 5%nat).
  - reflexivity.
  - vm_compute. left. reflexivity.
Defined.

(** ** A keyword hit needs a word *)

Lemma isspace_lower_char (c : ascii) : Py.isspace (Py.lower_char c) = Py.isspace c.
Proof. destruct c as [[] [] [] [] [] [] [] []]; reflexivity. Qed.

Lemma is_word_not_space (c : ascii) : Py.is_word c = true -> Py.isspace c = false.
Proof. destruct c as [[] [] [] [] [] [] [] []]; simpl; intro H; try reflexivity; discriminate H. Qed.

Lemma all_space_lower (s : string) : all_space (Py.lower s) = all_space s.
Proof.
  induction s as [|c s IH]; simpl; [reflexivity|].
  rewrite isspace_lower_char, IH. reflexivity.
Qed.

Lemma match_here_all_space (kw : string) (prev : option ascii) (s : string) :
  keyword_ok kw = true -> all_space s = true -> Py.match_here kw prev s = false.
Proof.
  intros Hok Hs. unfold Py.match_here.
  destruct kw as [|a kw]; [discriminate Hok|].
  destruct s as [|b s]; simpl; [apply andb_false_r|].
  destruct (Ascii.eqb_spec a b) as [->|]; [|apply andb_false_r].
  unfold keyword_ok in Hok. apply andb_true_iff in Hok. destruct Hok as [Hw _].
  simpl in Hw, Hs. apply is_word_not_space in Hw.
  rewrite Hw in Hs. discriminate Hs.
Qed.

Lemma scan_all_space (kw : string) :
  keyword_ok kw = true ->
  forall s skip pos prev, all_space s = true -> Py.scan kw skip pos prev s = [].
Proof.
  intro Hok. induction s as [|c s IH]; intros skip pos prev Hs.
  - simpl. destruct skip; [|reflexivity].
    rewrite (match_here_all_space kw prev EmptyString Hok Hs). reflexivity.
  - assert (Hs' : all_space s = true).
    { simpl in Hs. apply andb_true_iff in Hs. apply Hs. }
    cbn [Py.scan]. destruct skip; [|apply IH, Hs'].
    rewrite (match_here_all_space kw prev (String c s) Hok Hs). apply IH, Hs'.
Qed.

Lemma lexicon_keyword_ok (emotion : string) (keywords : list string) (keyword : string) :
  In (emotion, keywords) emotion_keywords -> In keyword keywords ->
  keyword_ok keyword = true.
Proof.
  intros He Hk. pose proof lexicon_keywords_ok as H.
  rewrite forallb_forall in H. specialize (H _ He). simpl in H.
  rewrite forallb_forall in H. apply H, Hk.
Qed.

Lemma raw_scores_no_word (text : string) (raw : ScoreMap) :
  total_words text = 0%nat -> raw_scores text = Ok raw ->
  Forall (fun v => v == 0) (values raw).
Proof.
  intros Hz Hraw. apply total_words_zero_iff in Hz.
  destruct (count_keywords_invariant (Py.lower text) (fun v => v == 0))
    with (scores := initial_scores) as (raw' & Hraw' & _ & H0).
  - intros emotion keywords keyword v He Hk Hv.
    unfold count_keyword, Py.findall_word.
    rewrite scan_all_space.
    + simpl. rewrite Hv. reflexivity.
    + exact (lexicon_keyword_ok emotion keywords keyword He Hk).
    + rewrite all_space_lower. exact Hz.
  - split; [reflexivity|]. repeat constructor; reflexivity.
  - unfold raw_scores in Hraw. rewrite Hraw in Hraw'. injection Hraw' as ->. exact H0.
Qed.

Lemma getitem_NoDup (d : ScoreMap) (k : string) (v : Q) :
  NoDup (keys d) -> In (k, v) d -> getitem k d = Ok v.
Proof.
  induction d as [|[k' v'] d IH]; simpl; [intros _ []|].
  intros Hnd Hin. inversion Hnd as [|? ? Hnotin Hnd']; subst.
  destruct Hin as [Hin|Hin].
  - injection Hin as -> ->. rewrite String.eqb_refl. reflexivity.
  - destruct (String.eqb_spec k' k) as [->|Hne]; [|apply IH; assumption].
    exfalso. apply Hnotin. unfold keys.
    change k with (fst (k, v)). apply in_map. exact Hin.
Qed.

Lemma value_has_key (d : ScoreMap) (v : Q) :
  NoDup (keys d) -> In v (values d) -> exists k, getitem k d = Ok v.
Proof.
  intros Hnd Hin. unfold values in Hin. apply in_map_iff in Hin.
  destruct Hin as ([k v'] & Hv & Hin). simpl in Hv. subst v'.
  exists k. apply getitem_NoDup; assumption.
Qed.

Lemma five_categories_NoDup : NoDup five_categories.
Proof.
  unfold five_categories.
  repeat (constructor; [simpl; intuition discriminate|]). constructor.
Qed.

Lemma is_maximum_unique (m : ScoreMap) (c c' : Q) :
  is_maximum c m -> is_maximum c' m -> c == c'.
Proof.
  intros [Hin Hup] [Hin' Hup']. apply Qle_antisym; auto.
Qed.

Lemma getitem_scaled (max_score : Q) (k : string) (d : ScoreMap) (v : Q) :
  getitem k d = Ok v -> getitem k (scaled max_score d) = Ok (v / max_score).
Proof.
  induction d as [|[k' v'] d IH]; simpl; [discriminate|].
  destruct (String.eqb k' k); [|exact IH].
  intro H. injection H as ->. reflexivity.
Qed.

Lemma scorer_scales (text : string) (raw : ScoreMap) (max_raw : Q) :
  raw_scores text = Ok raw -> is_maximum max_raw raw -> 0 < max_raw ->
  exists m,
    keyword_based_emotion_detection text = Ok m
    /\ forall k c, getitem k raw = Ok c -> score_is k m (c / max_raw).
Proof.
  intros Hraw Hmax Hpos.
  assert (Hw : total_words text <> 0%nat).
  { intro Hz. pose proof (raw_scores_no_word text raw Hz Hraw) as H0.
    rewrite Forall_forall in H0. destruct Hmax as [Hin _].
    rewrite (H0 _ Hin) in Hpos. exact (Qlt_irrefl _ Hpos). }
  destruct (scorer_words text Hw) as (raw' & Hraw' & _ & Hnn & ->).
  rewrite Hraw in Hraw'. injection Hraw' as <-.
  destruct (normalize_cases raw Hnn) as [[Hz _]|(mx & Hmx & _ & ->)].
  - exfalso. apply all_zero_iff in Hz. rewrite Forall_forall in Hz.
    destruct Hmax as [Hin _].
    rewrite (Hz _ Hin) in Hpos. exact (Qlt_irrefl _ Hpos).
  - eexists. split; [reflexivity|].
    intros k c Hk. exists (c / mx). split; [apply getitem_scaled, Hk|].
    rewrite (is_maximum_unique raw mx max_raw Hmx Hmax). reflexivity.
Qed.

(** C7.  When the greatest raw count is positive, the scorer divides every
    raw count by it: every category scores its raw count over the maximum,
    a category that holds the maximum scores exactly 1.0, and when category
    A has twice the raw count of category B and all others have none, A
    scores 1.0 and B scores 0.5. *)
Theorem normalization_by_maximum (text : string) (raw : ScoreMap) (max_raw : Q) :
  raw_scores text = Ok raw -> is_maximum max_raw raw -> 0 < max_raw ->
  exists m,
    keyword_based_emotion_detection text = Ok m
    /\ (forall k c, getitem k raw = Ok c -> score_is k m (c / max_raw))
    /\ (forall k c, getitem k raw = Ok c -> c == max_raw -> score_is k m 1)
    /\ (forall A B a b,
           A <> B -> getitem A raw = Ok a -> getitem B raw = Ok b ->
           a == 2 * b ->
           (forall C c, C <> A -> C <> B -> getitem C raw = Ok c -> c == 0) ->
           score_is A m 1 /\ score_is B m (1 # 2)).
Proof.
  intros Hraw Hmax Hpos.
  destruct (scorer_scales text raw max_raw Hraw Hmax Hpos) as (m & Hm & Hscale).
  assert (Hnz : ~ max_raw == 0).
  { intro E. rewrite E in Hpos. exact (Qlt_irrefl _ Hpos). }
  assert (Htop : forall k c, getitem k raw = Ok c -> c == max_raw -> score_is k m 1).
  { intros k c Hk Hc. destruct (Hscale k c Hk) as (v & Hv & Hvq).
    exists v. split; [exact Hv|]. rewrite Hvq, Hc. apply Qmult_inv_r, Hnz. }
  exists m. split; [exact Hm|]. split; [exact Hscale|]. split; [exact Htop|].
  intros A B a b HAB HA HB Hab Hrest.
  assert (Hnd : NoDup (keys raw)).
  { destruct (raw_scores_counts text) as (raw' & Hraw' & Hkeys & _).
    rewrite Hraw in Hraw'. injection Hraw' as <-.
    rewrite Hkeys, initial_keys. exact five_categories_NoDup. }
  assert (Ha : a == max_raw).
  { destruct Hmax as [Hin Hup].
    destruct (value_has_key raw max_raw Hnd Hin) as (C & HC).
    destruct (String.eqb_spec C A) as [->|HCA].
    - rewrite HA in HC. injection HC as ->. reflexivity.
    - destruct (String.eqb_spec C B) as [->|HCB].
      + rewrite HB in HC. injection HC as ->. exfalso.
        pose proof (Hup a (getitem_In_values _ _ _ HA)) as Hle.
        rewrite Hab in Hle. lra.
      + exfalso. apply Hnz. exact (Hrest C max_raw HCA HCB HC). }
  split; [exact (Htop A a HA Ha)|].
  destruct (Hscale B b HB) as (v & Hv & Hvq).
  exists v. split; [exact Hv|]. rewrite Hvq.
  assert (Hb : ~ b == 0).
  { intro E. apply Hnz. rewrite <- Ha, Hab, E. reflexivity. }
  rewrite <- Ha, Hab. field. exact Hb.
Qed.

Lemma normalization_by_maximum_witness :
  exists m,
    keyword_based_emotion_detection "Happy happy days, sad nights" = Ok m
    /\ score_is "happy" m 1 /\ score_is "sad" m (1 # 2).
Proof.
  destruct (normalization_by_maximum
              "Happy happy days, sad nights"
              [("happy", 2); ("sad", 1); ("angry", 0); ("fear", 0); ("surprise", 0)]
              2)
    as (m & Hm & _ & _ & H).
  - vm_compute. reflexivity.
  - split.
    + simpl. left. reflexivity.
    + intros v Hv. simpl in Hv.
      destruct Hv as [<-|[<-|[<-|[<-|[<-|[]]]]]]; apply Qle_bool_iff; reflexivity.
  - reflexivity.
  - exists m. split; [exact Hm|].
    apply (H "happy" "sad" 2 1).
    + discriminate.
    + reflexivity.
    + reflexivity.
    + reflexivity.
    + intros C c HA HB. cbn [getitem].
      destruct (String.eqb_spec "happy" C); [congruence|].
      destruct (String.eqb_spec "sad" C); [congruence|].
      destruct (String.eqb "angry" C); [intro E; injection E as <-; reflexivity|].
      destruct (String.eqb "fear" C); [intro E; injection E as <-; reflexivity|].
      destruct (String.eqb "surprise" C); [intro E; injection E as <-; reflexivity|].
      discriminate.
Defined.

(** ** The no-signal baseline *)

(** C1.  On "the weather is mild today" no keyword is counted and the
    scorer returns happy = 0.1 with every other category at 0.0; the
    selector applied to that map returns ("happy", 0.1), because 0.1 is
    not below the threshold 0.1: the label is "happy", not "calm". *)
Theorem no_signal_baseline_selects_happy :
  raw_scores "the weather is mild today"
  = Ok [("happy", 0); ("sad", 0); ("angry", 0); ("fear", 0); ("surprise", 0)]
  /\ keyword_based_emotion_detection "the weather is mild today"
     = Ok [("happy", 1 # 10); ("sad", 0); ("angry", 0); ("fear", 0); ("surprise", 0)]
  /\ get_dominant_emotion
       [("happy", 1 # 10); ("sad", 0); ("angry", 0); ("fear", 0); ("surprise", 0)]
     = Ok ("happy", 1 # 10)
  /\ analyze "the weather is mild today" <> Ok ("calm", 1 # 10).
Proof.
  split; [vm_compute; reflexivity|].
  split; [vm_compute; reflexivity|].
  split; [vm_compute; reflexivity|].
  vm_compute. discriminate.
Qed.

(** ** Fallback from the library scorer *)

(** C9.  Whenever the call to the library raises, the library-backed
    scorer returns what the keyword scorer returns on the same text, and
    that is a score map over the five categories with values between 0
    and 1: the exception is not propagated.  When the library returns, the
    result is a score map over the same five categories. *)
Theorem library_failure_falls_back (get_emotion : string -> result ScoreMap)
        (text : string) :
  (forall e, get_emotion text = Raise e ->
     analyze_emotion_text2emotion get_emotion text
     = keyword_based_emotion_detection text
     /\ exists m,
         analyze_emotion_text2emotion get_emotion text = Ok m
         /\ keys m = ["happy"; "sad"; "angry"; "fear"; "surprise"]
         /\ Forall (fun v => 0 <= v /\ v <= 1) (values m))
  /\ exists m,
      analyze_emotion_text2emotion get_emotion text = Ok m
      /\ forall k, In k (keys m) <-> In k ["happy"; "sad"; "angry"; "fear"; "surprise"].
Proof.
  assert (Hkw : exists m,
             keyword_based_emotion_detection text = Ok m
             /\ keys m = five_categories
             /\ Forall in_unit_interval (values m)).
  { destruct (Nat.eq_dec (total_words text) 0) as [Hz|Hw].
    - exists initial_scores. split; [apply scorer_no_word, Hz|].
      split; [reflexivity|]. repeat constructor; discriminate.
    - destruct (scorer_with_words text Hw) as (m & Hm & Hkeys & Hval & _).
      exists m. auto. }
  destruct Hkw as (m & Hm & Hkeys & Hval).
  unfold analyze_emotion_text2emotion. split.
  - intros e He. rewrite He. split; [reflexivity|]. exists m. auto.
  - destruct (get_emotion text) as [emotions|e].
    + eexists. split; [reflexivity|].
      intro k. change (keys (map_emotions emotions))
        with ["happy"; "angry"; "sad"; "surprise"; "fear"].
      simpl. intuition.
    + exists m. split; [exact Hm|]. rewrite Hkeys. reflexivity.
Qed.

Lemma library_failure_falls_back_witness :
  analyze_emotion_text2emotion (fun _ => Raise LibraryError) "I am mad about madrid"
  = keyword_based_emotion_detection "I am mad about madrid".
Proof.
  destruct (library_failure_falls_back (fun _ => Raise LibraryError)
                                       "I am mad about madrid") as [H _].
  destruct (H LibraryError eq_refl) as [Heq _]. exact Heq.
Defined.

(** ** Ties *)

Lemma key_value_in (d : ScoreMap) (k : string) :
  In k (keys d) -> exists v, In (k, v) d.
Proof.
  unfold keys. intro H. apply in_map_iff in H.
  destruct H as ([k' v] & Hk & Hin). simpl in Hk. subst k'. exists v. exact Hin.
Qed.

Lemma select_first_in_key_order (m : ScoreMap) :
  NoDup (keys m) ->
  (exists v, In v (values m) /\ 1 # 10 <= v) ->
  exists label confidence,
    get_dominant_emotion m = Ok (label, confidence)
    /\ is_maximum confidence m
    /\ earliest_maximal (keys m) m label confidence.
Proof.
  intros Hnd (v & Hv & Hge).
  assert (Hz : all_zero (values m) = false).
  { apply (positive_not_all_zero _ v Hv). intro E. rewrite E in Hge.
    revert Hge. apply Qlt_not_le. reflexivity. }
  destruct (select_winner m Hz) as (emotion & confidence & Hfirst & Hsel).
  assert (Hmax : is_maximum confidence m).
  { split.
    - unfold values. change confidence with (snd (emotion, confidence)).
      apply in_map. exact (first_max_In snd m _ Hfirst).
    - intros w Hw. unfold values in Hw. apply in_map_iff in Hw.
      destruct Hw as (x & <- & Hx). exact (first_max_upper snd m _ Hfirst x Hx). }
  assert (Hhigh : Qlt_bool confidence (1 # 10) = false).
  { apply Qlt_bool_false_iff. eapply Qle_trans; [exact Hge|]. apply Hmax, Hv. }
  rewrite Hhigh in Hsel.
  exists emotion, confidence. split; [exact Hsel|]. split; [exact Hmax|].
  pose proof (first_max_In snd m _ Hfirst) as Hin.
  destruct Hfirst as (pre & post & Hm & Hpre & Hpost).
  exists (keys pre), (keys post). split; [|split; [|split]].
  - rewrite Hm. unfold keys. rewrite map_app. reflexivity.
  - apply getitem_NoDup; assumption.
  - intros k w Hk Hget. destruct (key_value_in pre k Hk) as (w' & Hw').
    assert (Hget' : getitem k m = Ok w').
    { apply getitem_NoDup; [exact Hnd|]. rewrite Hm. apply in_or_app. left. exact Hw'. }
    rewrite Hget in Hget'. injection Hget' as ->.
    rewrite Forall_forall in Hpre. exact (Hpre _ Hw').
  - intros k w Hk Hget. destruct (key_value_in post k Hk) as (w' & Hw').
    assert (Hget' : getitem k m = Ok w').
    { apply getitem_NoDup; [exact Hnd|]. rewrite Hm.
      apply in_or_app. right. right. exact Hw'. }
    rewrite Hget in Hget'. injection Hget' as ->.
    rewrite Forall_forall in Hpost. exact (Hpost _ Hw').
Qed.

(** C8, as the claim states it, fails: on the map the library-backed
    scorer builds when the library reports Angry = Sad = 1.0, angry and sad
    tie for the maximum, sad is the earlier of the two in declaration
    order, and the selector returns "angry". *)
Lemma tie_break_declaration_order_counterexample :
  analyze_emotion_text2emotion
    (fun _ => Ok [("Happy", 0); ("Angry", 1); ("Surprise", 0); ("Sad", 1); ("Fear", 0)])
    "so sad and so angry"
  = Ok tied_library_scores
  /\ ~ Forall (fun v => v == 0) (values tied_library_scores)
  /\ get_dominant_emotion tied_library_scores = Ok ("angry", 1)
  /\ earliest_maximal declaration_order tied_library_scores "sad" 1
  /\ ~ earliest_maximal declaration_order tied_library_scores "angry" 1.
Proof.
  split; [reflexivity|]. split; [|split; [reflexivity|split]].
  - intro H. inversion H as [|? ? _ H1]; subst. inversion H1 as [|? ? H2 _]; subst.
    discriminate H2.
  - exists ["happy"], ["angry"; "fear"; "surprise"].
    split; [reflexivity|]. split; [reflexivity|]. split.
    + intros k v [<-|[]] Hget. injection Hget as <-. reflexivity.
    + intros k v Hk Hget. simpl in Hk.
      destruct Hk as [<-|[<-|[<-|[]]]]; injection Hget as <-; discriminate.
  - intros (pre & post & Hord & _ & Hpre & _).
    assert (Hsad : In "sad" pre).
    { destruct pre as [|p1 pre]; [discriminate Hord|].
      destruct pre as [|p2 pre]; [discriminate Hord|].
      injection Hord as _ <- _. right. left. reflexivity. }
    specialize (Hpre "sad" 1 Hsad eq_refl). revert Hpre. apply Qlt_irrefl.
Qed.

(** C8, amended.  On a score map with distinct keys whose greatest value
    is at least 0.1, the selector returns the key that comes first, in the
    map's own insertion order, among those that hold the greatest value.
    For the maps the keyword scorer returns on a text with at least one
    word, that order is the declaration order of the lexicon (happy, sad,
    angry, fear, surprise). *)
Theorem tie_break_insertion_order :
  (forall m : ScoreMap,
      NoDup (keys m) ->
      (exists v, In v (values m) /\ 1 # 10 <= v) ->
      exists label confidence,
        get_dominant_emotion m = Ok (label, confidence)
        /\ is_maximum confidence m
        /\ earliest_maximal (keys m) m label confidence)
  /\ (forall text : string,
         total_words text <> 0%nat ->
         exists m label confidence,
           keyword_based_emotion_detection text = Ok m
           /\ get_dominant_emotion m = Ok (label, confidence)
           /\ is_maximum confidence m
           /\ earliest_maximal ["happy"; "sad"; "angry"; "fear"; "surprise"]
                               m label confidence).
Proof.
  split; [exact select_first_in_key_order|].
  intros text Hw.
  destruct (scorer_with_words text Hw) as (m & Hm & Hkeys & _ & Hv).
  assert (Hnd : NoDup (keys m)) by (rewrite Hkeys; exact five_categories_NoDup).
  destruct (select_first_in_key_order m Hnd Hv) as (label & confidence & Hsel & Hmax & He).
  rewrite Hkeys in He.
  exists m, label, confidence. auto.
Qed.

Lemma tie_break_insertion_order_witness :
  (exists label confidence,
      get_dominant_emotion tied_library_scores = Ok (label, confidence)
      /\ is_maximum confidence tied_library_scores
      /\ earliest_maximal ["happy"; "angry"; "sad"; "surprise"; "fear"]
                          tied_library_scores label confidence)
  /\ (exists m label confidence,
         keyword_based_emotion_detection "sad and angry" = Ok m
         /\ get_dominant_emotion m = Ok (label, confidence)
         /\ is_maximum confidence m
         /\ earliest_maximal ["happy"; "sad"; "angry"; "fear"; "surprise"]
                             m label confidence).
Proof.
  destruct tie_break_insertion_order as [Hmap Htext]. split.
  - apply (Hmap tied_library_scores).
    + repeat (constructor; [simpl; intuition discriminate|]). constructor.
    + exists 1. split; [simpl; auto|discriminate].
  - apply (Htext "sad and angry"). vm_compute. discriminate.
Defined.

Example tie_sad_angry :
  analyze "sad and angry" = Ok ("sad", 1 # 1)
  /\ analyze "angry and sad" = Ok ("sad", 1 # 1).
Proof. split; vm_compute; reflexivity. Qed.

(** * Further properties of the code *)

(** ** The selector on arbitrary maps *)

Lemma first_max_is_maximum (m : ScoreMap) (label : string) (c : Q) :
  first_max snd m (label, c) -> is_maximum c m.
Proof.
  intro Hfirst. split.
  - unfold values. change c with (snd (label, c)).
    apply in_map. exact (first_max_In snd m _ Hfirst).
  - intros w Hw. unfold values in Hw. apply in_map_iff in Hw.
    destruct Hw as (x & <- & Hx). exact (first_max_upper snd m _ Hfirst x Hx).
Qed.

(** X1.  The selector never raises, whatever the map.  On a map whose
    values are all zero it answers ("neutral", 0.0); on any other map the
    confidence is the greatest value of the map (which may be zero or
    negative), the label is "calm" when that value is below 0.1 and
    otherwise a key that holds it. *)
Theorem selector_outcome (m : ScoreMap) :
  (Forall (fun v => v == 0) (values m)
   /\ get_dominant_emotion m = Ok ("neutral", 0))
  \/ (exists label c,
         get_dominant_emotion m = Ok (label, c)
         /\ ~ Forall (fun v => v == 0) (values m)
         /\ is_maximum c m
         /\ ((c < 1 # 10 /\ label = "calm")
             \/ (1 # 10 <= c /\ In (label, c) m))).
Proof.
  destruct (all_zero (values m)) eqn:Hz.
  - left. apply all_zero_iff in Hz. split; [exact Hz|apply select_neutral, Hz].
  - right. destruct (select_winner m Hz) as (label & c & Hfirst & Hsel).
    exists (if Qlt_bool c (1 # 10) then "calm" else label), c.
    split; [exact Hsel|]. split.
    { intro H. apply all_zero_iff in H. congruence. }
    split; [exact (first_max_is_maximum m label c Hfirst)|].
    destruct (Qlt_bool c (1 # 10)) eqn:E.
    + left. apply Qlt_bool_iff in E. auto.
    + right. apply Qlt_bool_false_iff in E. split; [exact E|].
      exact (first_max_In snd m _ Hfirst).
Qed.

(** ** Case *)

Lemma lower_char_idempotent (c : ascii) :
  Py.lower_char (Py.lower_char c) = Py.lower_char c.
Proof. destruct c as [[] [] [] [] [] [] [] []]; reflexivity. Qed.

Lemma lower_idempotent (s : string) : Py.lower (Py.lower s) = Py.lower s.
Proof.
  induction s as [|c s IH]; simpl; [reflexivity|].
  rewrite lower_char_idempotent, IH. reflexivity.
Qed.

Lemma total_words_zero_lower (text : string) :
  (total_words (Py.lower text) =? 0)%nat = (total_words text =? 0)%nat.
Proof.
  apply eq_true_iff_eq. rewrite !Nat.eqb_eq, !total_words_zero_iff.
  rewrite all_space_lower. reflexivity.
Qed.

Lemma scorer_by_lowered (t1 t2 : string) :
  Py.lower t1 = Py.lower t2 ->
  keyword_based_emotion_detection t1 = keyword_based_emotion_detection t2.
Proof.
  intro H. unfold keyword_based_emotion_detection, raw_scores.
  rewrite <- (total_words_zero_lower t1), <- (total_words_zero_lower t2), H.
  reflexivity.
Qed.

(** X2.  The keyword scorer is blind to case: two texts that are equal
    once lower-cased get the same score map, and a text scores as its
    lower-cased form does. *)
Theorem scorer_case_insensitive (t1 t2 : string) :
  (Py.lower t1 = Py.lower t2 ->
   keyword_based_emotion_detection t1 = keyword_based_emotion_detection t2)
  /\ keyword_based_emotion_detection (Py.lower t1)
     = keyword_based_emotion_detection t1.
Proof.
  split; [apply scorer_by_lowered|].
  apply scorer_by_lowered, lower_idempotent.
Qed.

Lemma scorer_case_insensitive_witness :
  keyword_based_emotion_detection "I am HAPPY, not Sad"
  = keyword_based_emotion_detection "i am happy, NOT sad".
Proof.
  destruct (scorer_case_insensitive "I am HAPPY, not Sad" "i am happy, NOT sad")
    as [H _].
  apply H. reflexivity.
Defined.

(** ** The counting loops *)

Section RawCounts.

(** The count of each keyword, whatever the text is. *)
Variable cnt : string -> nat.

Lemma loops_sum_counts :
  exists raw,
    for_each
      (fun scores entry =>
         let '(emotion, keywords) := entry in
         for_each (fun scores keyword => add_count emotion (cnt keyword) scores)
                  keywords scores)
      emotion_keywords initial_scores
    = Ok raw
    /\ keys raw = five_categories
    /\ forall emotion keywords,
        In (emotion, keywords) emotion_keywords ->
        score_is emotion raw (inject_Z (Z.of_nat (list_sum (map cnt keywords)))).
Proof.
  eexists. split; [cbn -[Qplus inject_Z Z.of_nat]; reflexivity|].
  split; [reflexivity|].
  intros emotion keywords Hin. unfold emotion_keywords in Hin. simpl in Hin.
  destruct Hin as [H|[H|[H|[H|[H|[]]]]]]; injection H as <- <-;
    (eexists; split; [reflexivity|]);
    cbn [map list_sum fold_right];
    rewrite ?Nat2Z.inj_add, ?inject_Z_plus; simpl (inject_Z (Z.of_nat 0)); ring.
Qed.

End RawCounts.

(** X3.  After the two counting loops every category holds the total
    number of matches of its own keywords in the lower-cased text: the
    loops never raise [KeyError], and no count is credited to another
    category. *)
Theorem raw_scores_are_keyword_counts (text : string) :
  exists raw,
    raw_scores text = Ok raw
    /\ keys raw = ["happy"; "sad"; "angry"; "fear"; "surprise"]
    /\ forall emotion keywords,
        In (emotion, keywords) emotion_keywords ->
        score_is emotion raw
                 (inject_Z (Z.of_nat (keyword_hits (Py.lower text) keywords))).
Proof.
  exact (loops_sum_counts (fun keyword => count_keyword keyword (Py.lower text))).
Qed.

Lemma raw_scores_are_keyword_counts_witness :
  exists raw,
    raw_scores "Mad, MAD world: I hate it" = Ok raw
    /\ score_is "angry" raw 3.
Proof.
  destruct (raw_scores_are_keyword_counts "Mad, MAD world: I hate it")
    as (raw & Hraw & _ & H).
  exists raw. split; [exact Hraw|].
  apply (H "angry"
           ["angry"; "mad"; "furious"; "rage"; "hate"; "annoyed"; "frustrated";
            "irritated"; "pissed"; "outraged"; "livid"; "enraged"]).
  simpl. right. right. left. reflexivity.
Defined.

(** ** Every standalone occurrence is found *)

Lemma strip_prefix_append (p s : string) :
  Py.strip_prefix p (p ++ s)%string = Some s.
Proof.
  induction p as [|a p IH]; simpl; [reflexivity|].
  rewrite Ascii.eqb_refl. exact IH.
Qed.

Lemma last_char_all_word (s : string) :
  forall prev,
    all_word s = true -> Py.is_word_at prev = true ->
    Py.is_word_at (Py.last_char prev s) = true.
Proof.
  induction s as [|c s IH]; intros prev Hs Hp; simpl in *; [exact Hp|].
  apply andb_true_iff in Hs. destruct Hs as [Hc Hs]. apply IH; assumption.
Qed.

Lemma word_run_all_word (w rest : string) :
  all_word w = true -> word_run (String.length w) (w ++ rest)%string = true.
Proof.
  induction w as [|c w IH]; simpl; [reflexivity|].
  intro H. apply andb_true_iff in H. destruct H as [Hc Hw].
  rewrite Hc. simpl. apply IH, Hw.
Qed.

Lemma match_here_complete (a : ascii) (kw : string) (prev : option ascii)
      (post : string) :
  all_word (String a kw) = true ->
  Py.is_word_at prev = false ->
  Py.is_word_at (Py.head post) = false ->
  Py.match_here (String a kw) prev (String a kw ++ post)%string = true.
Proof.
  intros Hkw Hprev Hpost. unfold Py.match_here.
  rewrite strip_prefix_append. unfold Py.word_boundary.
  rewrite Hprev, Hpost.
  pose proof Hkw as Hkw'. simpl in Hkw'.
  apply andb_true_iff in Hkw'. destruct Hkw' as [Ha Hrest].
  assert (Hlast : Py.is_word_at (Py.last_char prev (String a kw)) = true).
  { simpl. apply last_char_all_word; [exact Hrest|exact Ha]. }
  rewrite Hlast. cbn [append Py.head Py.is_word_at]. rewrite Ha. reflexivity.
Qed.

Lemma scan_complete (a : ascii) (kw post : string) :
  all_word (String a kw) = true ->
  Py.is_word_at (Py.head post) = false ->
  forall (mid : string) (skip pos : nat) (prev : option ascii),
    Py.is_word_at (Py.last_char prev mid) = false ->
    skip = 0%nat
    \/ (Py.is_word_at prev = true
        /\ word_run skip (mid ++ String a kw ++ post)%string = true) ->
    In (pos + String.length mid)%nat
       (Py.scan (String a kw) skip pos prev (mid ++ String a kw ++ post)%string).
Proof.
  intros Hkw Hpost.
  induction mid as [|c mid IH]; intros skip pos prev Hprev Hinv.
  - simpl in Hprev. destruct Hinv as [->|[Hw _]]; [|congruence].
    rewrite Nat.add_0_r. cbn [append]. change (String a (kw ++ post)%string)
      with (String a kw ++ post)%string.
    cbn [Py.scan append].
    change (String a (kw ++ post)%string) with (String a kw ++ post)%string.
    rewrite (match_here_complete a kw prev post Hkw Hprev Hpost).
    left. reflexivity.
  - cbn [String.length]. rewrite Nat.add_succ_r.
    change (String c mid ++ String a kw ++ post)%string
      with (String c (mid ++ String a kw ++ post)%string) in *.
    cbn [Py.scan].
    destruct skip as [|k].
    + destruct (Py.match_here (String a kw) prev
                  (String c (mid ++ String a kw ++ post))) eqn:E.
      * apply in_cons. apply (IH _ (S pos)); [exact Hprev|].
        right. unfold Py.match_here in E. apply andb_true_iff in E.
        destruct E as [_ E].
        destruct (Py.strip_prefix (String a kw)
                    (String c (mid ++ String a kw ++ post))) as [rest|] eqn:Hs;
          [|discriminate E].
        apply strip_prefix_sound in Hs. cbn [append] in Hs.
        injection Hs as Hc Hs. subst c.
        change (String a kw ++ post)%string with (String a (kw ++ post)%string).
        rewrite Hs.
        simpl in Hkw. apply andb_true_iff in Hkw. destruct Hkw as [Ha Hrest].
        split; [exact Ha|].
        replace (String.length (String a kw) - 1)%nat with (String.length kw)
          by (cbn [String.length]; lia).
        apply word_run_all_word, Hrest.
      * apply (IH _ (S pos)); [exact Hprev|]. left. reflexivity.
    + apply (IH _ (S pos)); [exact Hprev|].
      destruct Hinv as [Hinv|[_ Hrun]]; [discriminate Hinv|].
      cbn [word_run] in Hrun. apply andb_true_iff in Hrun.
      destruct Hrun as [Hc Hrun].
      destruct k; [left; reflexivity|right]. split; [exact Hc|exact Hrun].
Qed.

Lemma all_word_keyword_ok (a : ascii) (kw : string) :
  all_word (String a kw) = true -> keyword_ok (String a kw) = true.
Proof.
  intro H. unfold keyword_ok. pose proof H as H'. simpl in H'.
  apply andb_true_iff in H'. destruct H' as [Ha Hrest].
  apply andb_true_iff. split; [exact Ha|].
  simpl. apply last_char_all_word; assumption.
Qed.

(** X4.  For a non-empty keyword made of word characters, the offsets
    [findall] reports are exactly the offsets at which the keyword stands
    in the text with no word character just before or just after it. *)
Theorem findall_exactly_standalone (kw text : string) (i : nat) :
  all_word kw = true -> kw <> EmptyString ->
  (In i (Py.findall_word kw text)
   <-> exists pre post, standalone_at kw text pre post /\ String.length pre = i).
Proof.
  intros Hkw Hne. destruct kw as [|a kw]; [congruence|]. split.
  - intro Hin.
    destruct (scan_sound (String a kw) (all_word_keyword_ok a kw Hkw)
                         text EmptyString 0 i Hin)
      as (mid & post & Htext & Hi & Hprev & Hpost).
    exists mid, post. simpl in Hi, Hprev. unfold standalone_at. auto.
  - intros (pre & post & (Htext & Hprev & Hpost) & <-). subst text.
    apply (scan_complete a kw post Hkw Hpost pre 0 0 None Hprev).
    left. reflexivity.
Qed.

Lemma findall_exactly_standalone_witness :
  In 4%nat (Py.findall_word "mad" "mad-mad, madrid")
  <-> exists pre post,
      standalone_at "mad" "mad-mad, madrid" pre post /\ String.length pre = 4%nat.
Proof.
  apply (findall_exactly_standalone "mad" "mad-mad, madrid" 4).
  - reflexivity.
  - discriminate.
Defined.

(** ** What score-then-select can answer *)

Lemma values_setitem_in (k : string) (v x : Q) (d : ScoreMap) :
  In x (values (setitem k v d)) -> x = v \/ In x (values d).
Proof.
  induction d as [|[k' v'] d IH]; simpl.
  - intros [H|[]]. left. symmetry. exact H.
  - destruct (String.eqb k' k); simpl.
    + intros [H|H]; [left; symmetry; exact H|right; right; exact H].
    + intros [H|H]; [right; left; exact H|].
      destruct (IH H) as [E|E]; [left; exact E|right; right; exact E].
Qed.

Lemma in_scaled_zero (raw : ScoreMap) (x : Q) :
  all_zero (values raw) = true -> In x (values (scaled 1 raw)) -> x == 0.
Proof.
  intros Hz Hx. rewrite values_scaled in Hx. apply in_map_iff in Hx.
  destruct Hx as (w & <- & Hw).
  apply all_zero_iff in Hz. rewrite Forall_forall in Hz.
  rewrite (Hz w Hw). reflexivity.
Qed.

Lemma earliest_maximal_key (order : list string) (m : ScoreMap)
      (label : string) (c : Q) :
  earliest_maximal order m label c -> In label order /\ getitem label m = Ok c.
Proof.
  intros (pre & post & -> & Hget & _). split; [|exact Hget].
  apply in_or_app. right. left. reflexivity.
Qed.

(** With a word and no keyword counted, the scorer returns the baseline
    map and the selector answers ("happy", 0.1). *)
Lemma scorer_no_hit (text : string) (raw : ScoreMap) :
  total_words text <> 0%nat -> raw_scores text = Ok raw ->
  all_zero (values raw) = true ->
  keyword_based_emotion_detection text
  = Ok (setitem "happy" (1 # 10) (scaled 1 raw))
  /\ get_dominant_emotion (setitem "happy" (1 # 10) (scaled 1 raw))
     = Ok ("happy", 1 # 10).
Proof.
  intros Hw Hraw Hz.
  destruct (scorer_words text Hw) as (raw' & Hraw' & Hkeys & Hnn & Hs).
  rewrite Hraw in Hraw'. injection Hraw' as <-.
  assert (Hnorm : normalize raw = Ok (setitem "happy" (1 # 10) (scaled 1 raw))).
  { destruct (normalize_cases raw Hnn) as [[_ H]|(mx & [Hin _] & Hpos & _)];
      [exact H|].
    exfalso. apply all_zero_iff in Hz. rewrite Forall_forall in Hz.
    rewrite (Hz mx Hin) in Hpos. exact (Qlt_irrefl _ Hpos). }
  split; [rewrite Hs; exact Hnorm|].
  set (m := setitem "happy" (1 # 10) (scaled 1 raw)).
  assert (Hk : keys m = five_categories).
  { unfold m. rewrite setitem_keys; rewrite keys_scaled, Hkeys.
    - reflexivity.
    - left. reflexivity. }
  assert (Hnd : NoDup (keys m)) by (rewrite Hk; exact five_categories_NoDup).
  assert (Hbase : In (1 # 10) (values m)).
  { eapply getitem_In_values. apply getitem_setitem_same. }
  destruct (select_first_in_key_order m Hnd)
    as (label & c & Hsel & [Hin Hup] & Hearly).
  { exists (1 # 10). split; [exact Hbase|apply Qle_refl]. }
  destruct (earliest_maximal_key _ _ _ _ Hearly) as [_ Hget].
  assert (Hge : 1 # 10 <= c) by (apply Hup, Hbase).
  assert (Hc : c = 1 # 10).
  { destruct (values_setitem_in _ _ _ _ Hin) as [E|E]; [exact E|].
    exfalso. rewrite (in_scaled_zero raw c Hz E) in Hge.
    revert Hge. apply Qlt_not_le. reflexivity. }
  assert (Hl : label = "happy").
  { destruct (String.eqb_spec "happy" label) as [E|E]; [symmetry; exact E|].
    exfalso. unfold m in Hget. rewrite (getitem_setitem_other _ _ _ _ E) in Hget.
    apply getitem_In_values in Hget.
    rewrite (in_scaled_zero raw c Hz Hget) in Hge.
    revert Hge. apply Qlt_not_le. reflexivity. }
  rewrite Hsel, Hc, Hl. reflexivity.
Qed.

(** With a keyword counted, every score is the raw count over the
    greatest one, and the selector answers one of the five categories
    with confidence 1.0. *)
Lemma scorer_hit (text : string) (raw : ScoreMap) (max_raw : Q) :
  raw_scores text = Ok raw -> is_maximum max_raw raw -> 0 < max_raw ->
  exists m label c,
    keyword_based_emotion_detection text = Ok m
    /\ (forall k r, getitem k raw = Ok r -> score_is k m (r / max_raw))
    /\ get_dominant_emotion m = Ok (label, c)
    /\ In label five_categories
    /\ c == 1.
Proof.
  intros Hraw Hmax Hpos.
  destruct (scorer_scales text raw max_raw Hraw Hmax Hpos) as (m & Hm & Hscale).
  assert (Hw : total_words text <> 0%nat).
  { intro Hz. pose proof (raw_scores_no_word text raw Hz Hraw) as H0.
    rewrite Forall_forall in H0. destruct Hmax as [Hin _].
    rewrite (H0 _ Hin) in Hpos. exact (Qlt_irrefl _ Hpos). }
  destruct (scorer_with_words text Hw) as (m' & Hm' & Hkeys & Hunit & Hv).
  rewrite Hm in Hm'. injection Hm' as <-.
  assert (Hnd : NoDup (keys m)) by (rewrite Hkeys; exact five_categories_NoDup).
  destruct (select_first_in_key_order m Hnd Hv)
    as (label & c & Hsel & [Hin Hup] & Hearly).
  exists m, label, c. split; [exact Hm|]. split; [exact Hscale|].
  split; [exact Hsel|].
  destruct (earliest_maximal_key _ _ _ _ Hearly) as [Hlabel _].
  rewrite Hkeys in Hlabel. split; [exact Hlabel|].
  apply Qle_antisym.
  - rewrite Forall_forall in Hunit. apply (Hunit c Hin).
  - assert (Hndraw : NoDup (keys raw)).
    { destruct (raw_scores_counts text) as (raw' & Hraw' & Hk & _).
      rewrite Hraw in Hraw'. injection Hraw' as <-.
      rewrite Hk, initial_keys. exact five_categories_NoDup. }
    destruct Hmax as [Hmaxin _].
    destruct (value_has_key raw max_raw Hndraw Hmaxin) as (k & Hk).
    destruct (Hscale k max_raw Hk) as (v & Hv1 & Hv2).
    assert (E : max_raw / max_raw == 1).
    { apply Qmult_inv_r. intro E. rewrite E in Hpos. exact (Qlt_irrefl _ Hpos). }
    rewrite <- E, <- Hv2. apply Hup. exact (getitem_In_values _ _ _ Hv1).
Qed.

(** X5.  Scoring a text with the keyword scorer and selecting has three
    outcomes only: ("neutral", 0.0) when the text has no word;
    ("happy", 0.1) when it has a word and no keyword is counted; and, when
    a keyword is counted, one of the five categories with confidence 1.0.
    The label "calm" is never the answer for a keyword-scored text. *)
Theorem score_then_select_outcomes (text : string) :
  (exists raw,
      raw_scores text = Ok raw
      /\ ((total_words text = 0%nat /\ analyze text = Ok ("neutral", 0))
          \/ (total_words text <> 0%nat
              /\ Forall (fun v => v == 0) (values raw)
              /\ analyze text = Ok ("happy", 1 # 10))
          \/ (total_words text <> 0%nat
              /\ ~ Forall (fun v => v == 0) (values raw)
              /\ exists label c,
                  analyze text = Ok (label, c)
                  /\ In label ["happy"; "sad"; "angry"; "fear"; "surprise"]
                  /\ c == 1)))
  /\ forall c, analyze text <> Ok ("calm", c).
Proof.
  assert (H : exists raw,
             raw_scores text = Ok raw
             /\ ((total_words text = 0%nat /\ analyze text = Ok ("neutral", 0))
                 \/ (total_words text <> 0%nat
                     /\ Forall (fun v => v == 0) (values raw)
                     /\ analyze text = Ok ("happy", 1 # 10))
                 \/ (total_words text <> 0%nat
                     /\ ~ Forall (fun v => v == 0) (values raw)
                     /\ exists label c,
                         analyze text = Ok (label, c)
                         /\ In label five_categories
                         /\ c == 1))).
  { destruct (raw_scores_counts text) as (raw & Hraw & Hkeys & Hnn).
    exists raw. split; [exact Hraw|].
    destruct (Nat.eq_dec (total_words text) 0) as [Hz|Hw].
    - left. split; [exact Hz|]. unfold analyze.
      rewrite (scorer_no_word text Hz). reflexivity.
    - right. destruct (all_zero (values raw)) eqn:Hall.
      + left. split; [exact Hw|]. split; [apply all_zero_iff, Hall|].
        destruct (scorer_no_hit text raw Hw Hraw Hall) as [Hs Hsel].
        unfold analyze. rewrite Hs. exact Hsel.
      + right. split; [exact Hw|]. split.
        { intro H. apply all_zero_iff in H. congruence. }
        assert (Hne : raw <> []) by (intros ->; discriminate Hall).
        destruct (py_max_is_maximum raw Hne) as (mx & _ & Hmax).
        assert (Hpos : 0 < mx).
        { destruct (all_zero_false_positive _ Hnn Hall) as (v & Hv & Hvpos).
          eapply Qlt_le_trans; [exact Hvpos|]. apply Hmax, Hv. }
        destruct (scorer_hit text raw mx Hraw Hmax Hpos)
          as (m & label & c & Hm & _ & Hsel & Hlabel & Hc).
        exists label, c. split; [|split; assumption].
        unfold analyze. rewrite Hm. exact Hsel. }
  split; [exact H|].
  intros c Hcalm. destruct H as (raw & _ & [[_ Ha]|[(_ & _ & Ha)|(_ & _ & Ha)]]).
  - rewrite Ha in Hcalm. discriminate Hcalm.
  - rewrite Ha in Hcalm. discriminate Hcalm.
  - destruct Ha as (label & c' & Ha & Hlabel & _).
    rewrite Ha in Hcalm. injection Hcalm as Hl _. subst label.
    unfold five_categories in Hlabel. simpl in Hlabel.
    intuition discriminate.
Qed.

Lemma score_then_select_outcomes_witness :
  analyze "so calm, calm and quiet" <> Ok ("calm", 1 # 10).
Proof.
  destruct (score_then_select_outcomes "so calm, calm and quiet") as [_ H].
  exact (H (1 # 10)).
Defined.

(** ** A standalone keyword is detected *)

Example lexicon_keywords_all_word :
  forallb (fun entry =>
             forallb (fun kw => all_word kw && negb (String.eqb kw EmptyString))
                     (snd entry))
          emotion_keywords = true.
Proof. reflexivity. Qed.

Lemma lexicon_keyword_all_word (emotion : string) (keywords : list string)
      (keyword : string) :
  In (emotion, keywords) emotion_keywords -> In keyword keywords ->
  all_word keyword = true /\ keyword <> EmptyString.
Proof.
  intros He Hk. pose proof lexicon_keywords_all_word as H.
  rewrite forallb_forall in H. specialize (H _ He). simpl in H.
  rewrite forallb_forall in H. specialize (H _ Hk).
  apply andb_true_iff in H. destruct H as [Hw Hne]. split; [exact Hw|].
  intros ->. discriminate Hne.
Qed.

Lemma list_sum_member (f : string -> nat) (l : list string) (x : string) :
  In x l -> (f x <= list_sum (map f l))%nat.
Proof.
  induction l as [|y l IH]; simpl; [intros []|].
  intros [->|H]; [lia|]. specialize (IH H). lia.
Qed.

(** X6.  When the lower-cased text holds a keyword of the lexicon as a
    standalone word, the category of that keyword gets a positive score,
    the happy baseline is not applied, and the selector answers one of the
    five categories with confidence 1.0. *)
Theorem standalone_keyword_detected
        (text emotion : string) (keywords : list string)
        (keyword pre post : string) :
  In (emotion, keywords) emotion_keywords -> In keyword keywords ->
  standalone_at keyword (Py.lower text) pre post ->
  exists m v label c,
    keyword_based_emotion_detection text = Ok m
    /\ getitem emotion m = Ok v /\ 0 < v
    /\ get_dominant_emotion m = Ok (label, c)
    /\ In label ["happy"; "sad"; "angry"; "fear"; "surprise"]
    /\ c == 1.
Proof.
  intros He Hk (Htext & Hprev & Hpost).
  destruct (lexicon_keyword_all_word emotion keywords keyword He Hk) as [Hw Hne].
  destruct keyword as [|a kw]; [congruence|].
  assert (Hfound : In (String.length pre)
                      (Py.findall_word (String a kw) (Py.lower text))).
  { rewrite Htext.
    apply (scan_complete a kw post Hw Hpost pre 0 0 None Hprev).
    left. reflexivity. }
  assert (Hcount : (1 <= count_keyword (String a kw) (Py.lower text))%nat).
  { unfold count_keyword.
    destruct (Py.findall_word (String a kw) (Py.lower text)); [destruct Hfound|].
    simpl. lia. }
  destruct (loops_sum_counts (fun k => count_keyword k (Py.lower text)))
    as (raw & Hraw & Hkeys & Hsum).
  change (raw_scores text = Ok raw) in Hraw.
  destruct (Hsum emotion keywords He) as (r & Hr & Hrq).
  assert (Hrpos : 0 < r).
  { rewrite Hrq.
    pose proof (list_sum_member (fun k => count_keyword k (Py.lower text))
                                keywords (String a kw) Hk) as Hle.
    simpl in Hle. unfold Qlt. simpl. lia. }
  assert (Hne' : raw <> []) by (intros ->; discriminate Hr).
  destruct (py_max_is_maximum raw Hne') as (mx & _ & Hmax).
  assert (Hpos : 0 < mx).
  { eapply Qlt_le_trans; [exact Hrpos|].
    apply Hmax. exact (getitem_In_values _ _ _ Hr). }
  destruct (scorer_hit text raw mx Hraw Hmax Hpos)
    as (m & label & c & Hm & Hscale & Hsel & Hlabel & Hc).
  destruct (Hscale emotion r Hr) as (v & Hv & Hvq).
  exists m, v, label, c. split; [exact Hm|]. split; [exact Hv|].
  split; [|split; [exact Hsel|split; [exact Hlabel|exact Hc]]].
  rewrite Hvq. apply Qlt_shift_div_l; [exact Hpos|].
  rewrite Qmult_0_l. exact Hrpos.
Qed.

Lemma standalone_keyword_detected_witness :
  exists m v label c,
    keyword_based_emotion_detection "Why so WORRIED?" = Ok m
    /\ getitem "fear" m = Ok v /\ 0 < v
    /\ get_dominant_emotion m = Ok (label, c)
    /\ In label ["happy"; "sad"; "angry"; "fear"; "surprise"]
    /\ c == 1.
Proof.
  apply (standalone_keyword_detected
           "Why so WORRIED?" "fear"
           ["afraid"; "scared"; "fear"; "terrified"; "worried"; "anxious"; "panic";
            "nervous"; "frightened"; "alarmed"; "concerned"]
           "worried" "why so " "?").
  - simpl. right. right. right. left. reflexivity.
  - simpl. right. right. right. right. left. reflexivity.
  - unfold standalone_at. split; [reflexivity|]. split; reflexivity.
Defined.

(** ** The library-backed scorer when the library answers *)

Lemma getitem_absent (k : string) (d : ScoreMap) :
  ~ In k (keys d) -> getitem k d = Raise (KeyError k).
Proof.
  induction d as [|[k' v] d IH]; simpl; [reflexivity|].
  intro H. destruct (String.eqb_spec k' k) as [E|E].
  - exfalso. apply H. left. exact E.
  - apply IH. intro Hin. apply H. right. exact Hin.
Qed.

(** X7.  When the library returns a dictionary, the library-backed scorer
    returns the five categories in the order happy, angry, sad, surprise,
    fear; each carries the value the library gave under the capitalised
    name, or 0.0 when the library left that name out, and any other key of
    the library's dictionary is dropped. *)
Theorem library_scores_mapped (get_emotion : string -> result ScoreMap)
        (text : string) (emotions : ScoreMap) :
  get_emotion text = Ok emotions ->
  exists m,
    analyze_emotion_text2emotion get_emotion text = Ok m
    /\ keys m = ["happy"; "angry"; "sad"; "surprise"; "fear"]
    /\ (forall original mapped v,
           In (original, mapped) emotion_mapping ->
           getitem original emotions = Ok v -> getitem mapped m = Ok v)
    /\ (forall original mapped,
           In (original, mapped) emotion_mapping ->
           ~ In original (keys emotions) -> getitem mapped m = Ok 0).
Proof.
  intro Hget. exists (map_emotions emotions).
  unfold analyze_emotion_text2emotion. rewrite Hget.
  split; [reflexivity|]. split; [reflexivity|]. split.
  - intros original mapped v Hin Hv. unfold emotion_mapping in Hin. simpl in Hin.
    destruct Hin as [H|[H|[H|[H|[H|[]]]]]]; injection H as <- <-;
      cbv [map_emotions emotion_mapping fold_left fst snd get_default];
      rewrite Hv; reflexivity.
  - intros original mapped Hin Habs. apply getitem_absent in Habs.
    unfold emotion_mapping in Hin. simpl in Hin.
    destruct Hin as [H|[H|[H|[H|[H|[]]]]]]; injection H as <- <-;
      cbv [map_emotions emotion_mapping fold_left fst snd get_default];
      rewrite Habs; reflexivity.
Qed.

Lemma library_scores_mapped_witness :
  exists m,
    analyze_emotion_text2emotion
      (fun _ => Ok [("Sad", 1 # 2); ("Happy", 1 # 4); ("Bored", 1)]) "any text"
    = Ok m
    /\ getitem "sad" m = Ok (1 # 2)
    /\ getitem "fear" m = Ok 0.
Proof.
  destruct (library_scores_mapped
              (fun _ => Ok [("Sad", 1 # 2); ("Happy", 1 # 4); ("Bored", 1)])
              "any text" [("Sad", 1 # 2); ("Happy", 1 # 4); ("Bored", 1)] eq_refl)
    as (m & Hm & _ & Hpresent & Habsent).
  exists m. split; [exact Hm|]. split.
  - apply (Hpresent "Sad" "sad"); [|reflexivity].
    simpl. right. right. left. reflexivity.
  - apply (Habsent "Fear" "fear").
    + simpl. right. right. right. right. left. reflexivity.
    + simpl. intuition discriminate.
Defined.

(** ** Stripping *)

Lemma all_space_lstrip (s : string) : all_space (PyStr.lstrip s) = all_space s.
Proof.
  induction s as [|c s IH]; simpl; [reflexivity|].
  destruct (Py.isspace c) eqn:E; simpl; [exact IH|].
  rewrite E. reflexivity.
Qed.

Lemma lstrip_empty_iff (s : string) :
  PyStr.lstrip s = EmptyString <-> all_space s = true.
Proof.
  induction s as [|c s IH]; simpl; [intuition|].
  destruct (Py.isspace c); simpl; [exact IH|]. split; discriminate.
Qed.

Lemma rstrip_empty_iff (s : string) :
  PyStr.rstrip s = EmptyString <-> all_space s = true.
Proof.
  induction s as [|c s IH]; simpl; [intuition|].
  destruct (PyStr.rstrip s) as [|d r].
  - destruct (Py.isspace c); simpl.
    + split; [intros _; apply IH; reflexivity|reflexivity].
    + split; discriminate.
  - split; [discriminate|]. intro H. apply andb_true_iff in H.
    destruct H as [_ H]. apply IH in H. discriminate H.
Qed.

Lemma strip_empty_iff (s : string) :
  PyStr.strip s = EmptyString <-> all_space s = true.
Proof.
  unfold PyStr.strip. rewrite rstrip_empty_iff, all_space_lstrip. reflexivity.
Qed.

Lemma rstrip_first (c : ascii) (s : string) :
  Py.isspace c = false -> exists r, PyStr.rstrip (String c s) = String c r.
Proof.
  intro H. simpl. destruct (PyStr.rstrip s) as [|d r].
  - rewrite H. eexists. reflexivity.
  - eexists. reflexivity.
Qed.

(** A stripped text is empty or begins with a character that is not
    whitespace. *)
Lemma strip_first (s : string) :
  PyStr.strip s = EmptyString
  \/ exists c r, PyStr.strip s = String c r /\ Py.isspace c = false.
Proof.
  unfold PyStr.strip. induction s as [|c s IH]; simpl; [left; reflexivity|].
  destruct (Py.isspace c) eqn:E; [exact IH|].
  right. destruct (rstrip_first c s E) as (r & Hr).
  exists c, r. split; [exact Hr|exact E].
Qed.

Lemma strip_words (s : string) :
  PyStr.strip s <> EmptyString -> total_words (PyStr.strip s) <> 0%nat.
Proof.
  intros Hne Hz. apply total_words_zero_iff in Hz.
  destruct (strip_first s) as [E|(c & r & E & Hc)]; [contradiction|].
  rewrite E in Hz. simpl in Hz. rewrite Hc in Hz. discriminate Hz.
Qed.

Lemma lstrip_length (s : string) :
  (String.length (PyStr.lstrip s) <= String.length s)%nat.
Proof.
  induction s as [|c s IH]; simpl; [lia|].
  destruct (Py.isspace c); simpl; lia.
Qed.

Lemma rstrip_length (s : string) :
  (String.length (PyStr.rstrip s) <= String.length s)%nat.
Proof.
  induction s as [|c s IH]; simpl; [lia|].
  destruct (PyStr.rstrip s) as [|d r].
  - destruct (Py.isspace c); simpl; lia.
  - simpl in *. lia.
Qed.

Lemma strip_length (s : string) :
  (String.length (PyStr.strip s) <= String.length s)%nat.
Proof.
  unfold PyStr.strip.
  pose proof (rstrip_length (PyStr.lstrip s)). pose proof (lstrip_length s). lia.
Qed.

Lemma lstrip_space_append (a s : string) :
  all_space a = true -> PyStr.lstrip (a ++ s)%string = PyStr.lstrip s.
Proof.
  induction a as [|c a IH]; simpl; [reflexivity|].
  intro H. apply andb_true_iff in H. destruct H as [Hc Ha].
  rewrite Hc. apply IH, Ha.
Qed.

Lemma rstrip_append_space (s b : string) :
  all_space b = true -> PyStr.rstrip (s ++ b)%string = PyStr.rstrip s.
Proof.
  intro Hb. induction s as [|c s IH]; simpl.
  - apply rstrip_empty_iff, Hb.
  - rewrite IH. reflexivity.
Qed.

Lemma strip_append_space (s b : string) :
  all_space b = true -> PyStr.strip (s ++ b)%string = PyStr.strip s.
Proof.
  intro Hb. unfold PyStr.strip. induction s as [|c s IH].
  - simpl. assert (E : PyStr.lstrip b = EmptyString) by (apply lstrip_empty_iff, Hb).
    rewrite E. reflexivity.
  - cbn [append PyStr.lstrip]. destruct (Py.isspace c); [exact IH|].
    change (String c (s ++ b)%string) with (String c s ++ b)%string.
    apply rstrip_append_space, Hb.
Qed.

Lemma strip_surrounded (a s b : string) :
  all_space a = true -> all_space b = true ->
  PyStr.strip (a ++ s ++ b)%string = PyStr.strip s.
Proof.
  intros Ha Hb. unfold PyStr.strip at 1. rewrite (lstrip_space_append a _ Ha).
  exact (strip_append_space s b Hb).
Qed.

(** ** The endpoint *)

Lemma scorer_returns (text : string) :
  exists m,
    keyword_based_emotion_detection text = Ok m /\ keys m = five_categories.
Proof.
  destruct (Nat.eq_dec (total_words text) 0) as [Hz|Hw].
  - exists initial_scores. split; [apply scorer_no_word, Hz|reflexivity].
  - destruct (scorer_with_words text Hw) as (m & Hm & Hkeys & _).
    exists m. auto.
Qed.

Lemma select_returns (m : ScoreMap) :
  exists label c, get_dominant_emotion m = Ok (label, c).
Proof.
  destruct (all_zero (values m)) eqn:Hz.
  - exists "neutral", 0. apply select_neutral, all_zero_iff, Hz.
  - destruct (select_winner m Hz) as (label & c & _ & Hsel).
    eexists. eexists. exact Hsel.
Qed.

Section EndpointFacts.

Variable USE_TEXT2EMOTION : bool.
Variable get_emotion : string -> result ScoreMap.
Variable round3 : Q -> Q.

Lemma endpoint_scorer_returns (text : string) :
  exists m, endpoint_scorer USE_TEXT2EMOTION get_emotion text = Ok m.
Proof.
  destruct (scorer_returns text) as (m & Hm & _).
  unfold endpoint_scorer, analyze_emotion_text2emotion.
  destruct USE_TEXT2EMOTION; [|exists m; exact Hm].
  destruct (get_emotion text) as [emotions|e]; [eexists; reflexivity|].
  exists m. exact Hm.
Qed.

Lemma analyze_accepted_returns (text : string) :
  exists emotions label c,
    endpoint_scorer USE_TEXT2EMOTION get_emotion text = Ok emotions
    /\ get_dominant_emotion emotions = Ok (label, c)
    /\ analyze_accepted USE_TEXT2EMOTION get_emotion round3 text
       = Ok {| emotion := label;
               confidence := round3 c;
               all_emotions := map (fun kv => (fst kv, round3 (snd kv))) emotions |}.
Proof.
  destruct (endpoint_scorer_returns text) as (emotions & Hs).
  destruct (select_returns emotions) as (label & c & Hsel).
  exists emotions, label, c. split; [exact Hs|]. split; [exact Hsel|].
  unfold analyze_accepted.
  fold (endpoint_scorer USE_TEXT2EMOTION get_emotion text).
  rewrite Hs. cbn [bind].
  rewrite Hsel. reflexivity.
Qed.

Lemma endpoint_cases (input_text : string) :
  (PyStr.strip input_text = EmptyString
   /\ analyze_emotion USE_TEXT2EMOTION get_emotion round3 input_text
      = HTTPException 400 "Text input cannot be empty")
  \/ (PyStr.strip input_text <> EmptyString
      /\ (1000 < String.length (PyStr.strip input_text))%nat
      /\ analyze_emotion USE_TEXT2EMOTION get_emotion round3 input_text
         = HTTPException 400 "Text too long (max 1000 characters)")
  \/ (PyStr.strip input_text <> EmptyString
      /\ (String.length (PyStr.strip input_text) <= 1000)%nat
      /\ exists emotions label c,
          endpoint_scorer USE_TEXT2EMOTION get_emotion (PyStr.strip input_text) = Ok emotions
          /\ get_dominant_emotion emotions = Ok (label, c)
          /\ analyze_emotion USE_TEXT2EMOTION get_emotion round3 input_text
             = Response
                 {| emotion := label;
                    confidence := round3 c;
                    all_emotions :=
                      map (fun kv => (fst kv, round3 (snd kv))) emotions |}).
Proof.
  unfold analyze_emotion.
  destruct (PyStr.strip input_text) as [|a t] eqn:Hs; [left; auto|].
  right. destruct (1000 <? String.length (String a t))%nat eqn:Hlen.
  - left. apply Nat.ltb_lt in Hlen. split; [discriminate|]. auto.
  - right. apply Nat.ltb_ge in Hlen. split; [discriminate|]. split; [exact Hlen|].
    destruct (analyze_accepted_returns (String a t))
      as (emotions & label & c & Hsc & Hsel & Hacc).
    exists emotions, label, c. rewrite Hacc. auto.
Qed.

End EndpointFacts.

(** X8.  The endpoint answers status 400 "Text input cannot be empty"
    exactly on the inputs that are empty or made of whitespace only,
    whichever engine is active. *)
Theorem endpoint_rejects_blank
        (USE_TEXT2EMOTION : bool) (get_emotion : string -> result ScoreMap)
        (round3 : Q -> Q) (input_text : string) :
  analyze_emotion USE_TEXT2EMOTION get_emotion round3 input_text
  = HTTPException 400 "Text input cannot be empty"
  <-> all_space input_text = true.
Proof.
  rewrite <- strip_empty_iff.
  destruct (endpoint_cases USE_TEXT2EMOTION get_emotion round3 input_text)
    as [[Hs ->]|[(Hs & _ & ->)|(Hs & _ & ? & ? & ? & _ & _ & ->)]].
  - split; auto.
  - split; [discriminate|contradiction].
  - split; [discriminate|contradiction].
Qed.

Lemma endpoint_rejects_blank_witness :
  analyze_emotion true (fun _ => Ok []) (fun q => q) "
 	 "
  = HTTPException 400 "Text input cannot be empty".
Proof.
  apply (endpoint_rejects_blank true (fun _ => Ok []) (fun q => q)).
  reflexivity.
Defined.

(** X9.  The endpoint answers status 400 "Text too long (max 1000
    characters)" exactly when the stripped text has more than 1000
    characters; an input of at most 1000 characters is never refused as
    too long. *)
Theorem endpoint_rejects_long
        (USE_TEXT2EMOTION : bool) (get_emotion : string -> result ScoreMap)
        (round3 : Q -> Q) (input_text : string) :
  (analyze_emotion USE_TEXT2EMOTION get_emotion round3 input_text
   = HTTPException 400 "Text too long (max 1000 characters)"
   <-> (1000 < String.length (PyStr.strip input_text))%nat)
  /\ ((String.length input_text <= 1000)%nat ->
      analyze_emotion USE_TEXT2EMOTION get_emotion round3 input_text
      <> HTTPException 400 "Text too long (max 1000 characters)").
Proof.
  assert (H : analyze_emotion USE_TEXT2EMOTION get_emotion round3 input_text
              = HTTPException 400 "Text too long (max 1000 characters)"
              <-> (1000 < String.length (PyStr.strip input_text))%nat).
  { destruct (endpoint_cases USE_TEXT2EMOTION get_emotion round3 input_text)
      as [[Hs ->]|[(_ & Hlen & ->)|(_ & Hlen & ? & ? & ? & _ & _ & ->)]].
    - rewrite Hs. simpl. split; [discriminate|lia].
    - split; auto.
    - split; [discriminate|lia]. }
  split; [exact H|].
  intros Hlen Hlong. apply H in Hlong.
  pose proof (strip_length input_text). lia.
Qed.

Lemma endpoint_rejects_long_witness :
  analyze_emotion false (fun _ => Raise LibraryError) (fun q => q) (letters 1000)
  <> HTTPException 400 "Text too long (max 1000 characters)"
  /\ analyze_emotion false (fun _ => Raise LibraryError) (fun q => q)
                     (letters 1001)
     = HTTPException 400 "Text too long (max 1000 characters)".
Proof.
  split.
  - destruct (endpoint_rejects_long false (fun _ => Raise LibraryError)
                                    (fun q => q) (letters 1000))
      as [_ Hshort].
    apply Hshort. apply Nat.leb_le. vm_compute. reflexivity.
  - destruct (endpoint_rejects_long false (fun _ => Raise LibraryError)
                                    (fun q => q) (letters 1001))
      as [Hiff _].
    apply Hiff. apply Nat.ltb_lt. vm_compute. reflexivity.
Defined.



Lemma analyze_with_words (text : string) :
  total_words text <> 0%nat ->
  exists m label c,
    keyword_based_emotion_detection text = Ok m
    /\ keys m = five_categories
    /\ get_dominant_emotion m = Ok (label, c)
    /\ In label five_categories
    /\ (c = 1 # 10 \/ c == 1).
Proof.
  intro Hw.
  destruct (scorer_with_words text Hw) as (m & Hm & Hkeys & _).
  destruct (raw_scores_counts text) as (raw & Hraw & _ & Hnn).
  destruct (all_zero (values raw)) eqn:Hall.
  - destruct (scorer_no_hit text raw Hw Hraw Hall) as [Hs Hsel].
    rewrite Hm in Hs. injection Hs as ->.
    exists (setitem "happy" (1 # 10) (scaled 1 raw)), "happy", (1 # 10).
    split; [exact Hm|]. split; [exact Hkeys|]. split; [exact Hsel|].
    split; [left; reflexivity|left; reflexivity].
  - assert (Hne : raw <> []) by (intros ->; discriminate Hall).
    destruct (py_max_is_maximum raw Hne) as (mx & _ & Hmax).
    assert (Hpos : 0 < mx).
    { destruct (all_zero_false_positive _ Hnn Hall) as (v & Hv & Hvpos).
      eapply Qlt_le_trans; [exact Hvpos|]. apply Hmax, Hv. }
    destruct (scorer_hit text raw mx Hraw Hmax Hpos)
      as (m' & label & c & Hm' & _ & Hsel & Hlabel & Hc).
    rewrite Hm in Hm'. injection Hm' as <-.
    exists m, label, c. auto 6.
Qed.

(** X11.  While the health report names the engine "keyword-based", every
    text the endpoint accepts is answered with one of the five category
    names, never "neutral" or "calm"; the confidence is the rounding of
    0.1 or of 1.0, and the score list holds the five categories in
    declaration order. *)
Theorem endpoint_keyword_engine_labels
        (USE_TEXT2EMOTION : bool) (get_emotion : string -> result ScoreMap)
        (round3 : Q -> Q) (input_text : string) :
  health_check_engine USE_TEXT2EMOTION = "keyword-based" ->
  all_space input_text = false ->
  (String.length (PyStr.strip input_text) <= 1000)%nat ->
  exists response c,
    analyze_emotion USE_TEXT2EMOTION get_emotion round3 input_text
    = Response response
    /\ In (emotion response) ["happy"; "sad"; "angry"; "fear"; "surprise"]
    /\ confidence response = round3 c
    /\ (c = 1 # 10 \/ c == 1)
    /\ keys (all_emotions response) = ["happy"; "sad"; "angry"; "fear"; "surprise"].
Proof.
  intros Hengine Hsp Hlen.
  destruct USE_TEXT2EMOTION; [discriminate Hengine|].
  assert (Hne : PyStr.strip input_text <> EmptyString).
  { intro E. apply strip_empty_iff in E. congruence. }
  destruct (analyze_with_words _ (strip_words input_text Hne))
    as (m & label & c & Hm & Hkeys & Hsel & Hlabel & Hc).
  exists {| emotion := label;
            confidence := round3 c;
            all_emotions := map (fun kv => (fst kv, round3 (snd kv))) m |}, c.
  split; [|split; [exact Hlabel|split; [reflexivity|split; [exact Hc|]]]].
  - unfold analyze_emotion.
    destruct (PyStr.strip input_text) as [|a t] eqn:Hs; [congruence|].
    apply Nat.ltb_ge in Hlen. rewrite Hlen.
    unfold analyze_accepted. rewrite Hm. cbn [bind]. rewrite Hsel. reflexivity.
  - cbn [all_emotions]. unfold keys. rewrite map_map. exact Hkeys.
Qed.

Lemma endpoint_keyword_engine_labels_witness :
  exists response c,
    analyze_emotion false (fun _ => Raise LibraryError) (fun q => q)
                    " nothing to report "
    = Response response
    /\ In (emotion response) ["happy"; "sad"; "angry"; "fear"; "surprise"]
    /\ confidence response = c
    /\ (c = 1 # 10 \/ c == 1)
    /\ keys (all_emotions response) = ["happy"; "sad"; "angry"; "fear"; "surprise"].
Proof.
  apply (endpoint_keyword_engine_labels
           false (fun _ => Raise LibraryError) (fun q => q) " nothing to report ").
  - reflexivity.
  - reflexivity.
  - apply Nat.leb_le. vm_compute. reflexivity.
Defined.

(** X12.  Whitespace around the text does not change the answer of the
    endpoint: the text is stripped before it is checked and scored. *)
Theorem endpoint_ignores_surrounding_whitespace
        (USE_TEXT2EMOTION : bool) (get_emotion : string -> result ScoreMap)
        (round3 : Q -> Q) (before text after : string) :
  all_space before = true -> all_space after = true ->
  analyze_emotion USE_TEXT2EMOTION get_emotion round3
                  (before ++ text ++ after)%string
  = analyze_emotion USE_TEXT2EMOTION get_emotion round3 text.
Proof.
  intros Hb Ha. unfold analyze_emotion.
  rewrite (strip_surrounded before text after Hb Ha). reflexivity.
Qed.

Lemma endpoint_ignores_surrounding_whitespace_witness :
  analyze_emotion false (fun _ => Raise LibraryError) (fun q => q)
                  ("  	" ++ "I am happy" ++ "
")%string
  = analyze_emotion false (fun _ => Raise LibraryError) (fun q => q) "I am happy".
Proof.
  apply (endpoint_ignores_surrounding_whitespace
           false (fun _ => Raise LibraryError) (fun q => q)).
  - reflexivity.
  - reflexivity.
Defined.

(** X13.  When the library raises on the stripped text, the endpoint with
    the library engine answers exactly what it answers with the keyword
    engine. *)
Theorem endpoint_library_failure
        (get_emotion : string -> result ScoreMap) (round3 : Q -> Q)
        (input_text : string) (e : exn) :
  get_emotion (PyStr.strip input_text) = Raise e ->
  analyze_emotion true get_emotion round3 input_text
  = analyze_emotion false get_emotion round3 input_text.
Proof.
  intro H. unfold analyze_emotion, analyze_accepted, analyze_emotion_text2emotion.
  destruct (PyStr.strip input_text) as [|a t]; [reflexivity|].
  rewrite H. reflexivity.
Qed.

Lemma endpoint_library_failure_witness :
  analyze_emotion true (fun _ => Raise ValueError) (fun q => q) " I am mad "
  = analyze_emotion false (fun _ => Raise ValueError) (fun q => q) " I am mad ".
Proof.
  apply (endpoint_library_failure (fun _ => Raise ValueError) (fun q => q)
                                  " I am mad " ValueError).
  reflexivity.
Defined.
